(** * Vendor-APIs: the GitHub client, the S3 uploader and the orchestrator

    A shallow embedding of [logger.py], [github_api.py], [s3_uploader.py]
    and [main.py], and the properties of the specification proved on it.

    Conventions of the embedding.
    - Python text ([str]) is a [string] holding its UTF-8 encoding; string
      concatenation and f-strings are [+:+].
    - A Python call is a computation [M A]: it reads and extends a [World]
      (the ordered trace of log records, HTTP requests and S3 puts, and the
      bucket contents) and either returns a value or raises an exception.
    - What the code calls but does not define is the environment [Env]:
      [requests.request], the JSON decoder behind [Response.json], the
      [put_object] call of the S3 client, and the two printing tables of the
      interpreter that need floating point or the Unicode database. The
      environment answers a call from the requests and puts made so far.
    - Exceptions are instances of [Exception]; interpreter signals outside
      that class ([KeyboardInterrupt], [SystemExit]) are not modelled.
    - [Module main] is main.py as its entry point has it from line 67 on:
      the module global [logger] bound by that line, the loggers of the three
      modules made. [Module main_py] is main.py with its module state: the
      global [logger] bound or not (it is not bound in a module that was
      imported), and constructions of [log_this] that can fail on the disk. *)

From Stdlib Require Import ZArith NArith String Ascii List DecimalString Floats Lia.
From stdpp Require Import gmap strings.

Open Scope Z_scope.

(** ** Text *)

Module Text.

(** The double quote character (code 34). *)
Definition dquote : ascii := ascii_of_N 34.
Definition squote : ascii := "'"%char.
Definition backslash : ascii := "\"%char.

Definition chr (n : N) : string := String (ascii_of_N n) EmptyString.

Fixpoint join (sep : string) (parts : list string) : string :=
  match parts with
  | [] => ""
  | [p] => p
  | p :: rest => p +:+ sep +:+ join sep rest
  end.

Definition concat (parts : list string) : string :=
  fold_right String.append "" parts.

Fixpoint contains_char (c : ascii) (s : string) : bool :=
  match s with
  | EmptyString => false
  | String d rest => Ascii.eqb c d || contains_char c rest
  end.

(** Decimal text of an integer, as [str] gives it for an [int]. *)
Definition decimal (n : Z) : string := NilZero.string_of_int (Z.to_int n).

Definition hex_digit (n : N) : ascii :=
  if (n <? 10)%N then ascii_of_N (48 + n) else ascii_of_N (87 + n).

(** [hex w n]: the [w] lowest hexadecimal digits of [n], lower case. *)
Fixpoint hex (width : nat) (n : N) : string :=
  match width with
  | O => ""
  | S w => hex w (n / 16)%N +:+ String (hex_digit (n mod 16)%N) ""
  end.

(** UTF-8 encoding of one code point (surrogates are encoded as any other
    three-byte code point, so every Python string has an image). *)
Definition utf8 (cp : N) : string :=
  (if cp <? 128 then chr cp
   else if cp <? 2048 then chr (192 + cp / 64) +:+ chr (128 + cp mod 64)
   else if cp <? 65536 then
     chr (224 + cp / 4096) +:+ chr (128 + (cp / 64) mod 64) +:+ chr (128 + cp mod 64)
   else
     chr (240 + cp / 262144) +:+ chr (128 + (cp / 4096) mod 64)
     +:+ chr (128 + (cp / 64) mod 64) +:+ chr (128 + cp mod 64))%N.

(** The code points of a UTF-8 text. [pending] and [more] hold the bits and
    the number of continuation bytes of a sequence under way. *)
Fixpoint code_points_from (pending : N) (more : nat) (s : string) : list N :=
  match s with
  | EmptyString => []
  | String c rest =>
      let b := N_of_ascii c in
      match more with
      | O =>
          if (b <? 192)%N then b :: code_points_from 0 0 rest
          else if (b <? 224)%N then code_points_from (b mod 32) 1 rest
          else if (b <? 240)%N then code_points_from (b mod 16) 2 rest
          else code_points_from (b mod 8) 3 rest
      | S k =>
          let acc := (pending * 64 + b mod 64)%N in
          match k with
          | O => acc :: code_points_from 0 0 rest
          | S _ => code_points_from acc k rest
          end
      end
  end.

Definition code_points (s : string) : list N := code_points_from 0 0 s.

End Text.

(** ** Python values *)

(** The JSON-compatible values the program moves around: what
  [Response.json] returns and what [str] is applied to. [VNone] is
  Python's [None], the "absent" sentinel of the specification. A [VDict]
  lists its items in insertion order. *)
#[local] Set Warnings "-register-all".
Inductive value : Type :=
| VNone
| VBool (b : bool)
| VInt (n : Z)
| VFloat (x : float)
| VStr (s : string)
| VList (items : list value)
| VDict (pairs : list (string * value)).

Definition is_structured (v : value) : bool :=
match v with
| VList _ | VDict _ => true
| _ => false
end.

(** The two printing tables of the interpreter that are left abstract. *)
Record Printer := {
float_repr : float -> string;      (* repr of a float *)
isprintable : N -> bool            (* str.isprintable on a code point above 127 *)
}.

Module Py.
Section Repr.
Variable pr : Printer.

(** [repr] of a [str] picks double quotes only when the text has a single
    quote and no double quote. *)
Definition repr_quote (s : string) : ascii :=
  if Text.contains_char Text.squote s && negb (Text.contains_char Text.dquote s)
  then Text.dquote else Text.squote.

Definition repr_char (quote : ascii) (cp : N) : string :=
  (if (cp =? N_of_ascii quote) || (cp =? 92) then String Text.backslash (Text.chr cp)
   else if cp =? 9 then "\t"
   else if cp =? 10 then "\n"
   else if cp =? 13 then "\r"
   else if (cp <? 32) || (cp =? 127) then "\x" +:+ Text.hex 2 cp
   else if cp <? 127 then Text.chr cp
   else if isprintable pr cp then Text.utf8 cp
   else if cp <? 256 then "\x" +:+ Text.hex 2 cp
   else if cp <? 65536 then "\u" +:+ Text.hex 4 cp
   else "\U" +:+ Text.hex 8 cp)%N.

Definition repr_str (s : string) : string :=
  let q := repr_quote s in
  String q (Text.concat (map (repr_char q) (Text.code_points s))) +:+ String q "".

Fixpoint repr (v : value) : string :=
  match v with
  | VNone => "None"
  | VBool true => "True"
  | VBool false => "False"
  | VInt n => Text.decimal n
  | VFloat x => float_repr pr x
  | VStr s => repr_str s
  | VList items => "[" +:+ Text.join ", " (map repr items) +:+ "]"
  | VDict pairs =>
      "{" +:+ Text.join ", " (map (fun kv => repr_str (fst kv) +:+ ": " +:+ repr (snd kv)) pairs)
      +:+ "}"
  end.

(** [str(v)]: a [str] is returned as it is, anything else through [repr]. *)
Definition str (v : value) : string :=
  match v with
  | VStr s => s
  | _ => repr v
  end.

End Repr.
End Py.

(** ** JSON documents *)

(** The JSON grammar (RFC 8259) as a decoder from text to [value]:
  [loads s] is [Some v] when [s] is a JSON document denoting [v] and
  [None] when [s] is not a JSON document. Numbers with a fraction or an
  exponent go through [parse_float], the only floating-point step. *)
Module JSON.
Section Decoder.
Variable parse_float : string -> float.

Definition is_ws (c : ascii) : bool :=
  let n := N_of_ascii c in ((n =? 32) || (n =? 9) || (n =? 10) || (n =? 13))%N.

Fixpoint skip_ws (s : string) : string :=
  match s with
  | String c rest => if is_ws c then skip_ws rest else s
  | EmptyString => s
  end.

Definition is_digit (c : ascii) : bool :=
  let n := N_of_ascii c in ((48 <=? n) && (n <=? 57))%N.

(** The longest prefix of digits, and what follows it. *)
Fixpoint span_digits (s : string) : string * string :=
  match s with
  | String c rest =>
      if is_digit c then let '(ds, r) := span_digits rest in (String c ds, r) else ("", s)
  | EmptyString => ("", s)
  end.

Fixpoint digits_value (acc : Z) (ds : string) : Z :=
  match ds with
  | String c rest => digits_value (10 * acc + (Z.of_N (N_of_ascii c) - 48)) rest
  | EmptyString => acc
  end.

Definition hex_value (c : ascii) : option N :=
  let n := N_of_ascii c in
  (if (48 <=? n) && (n <=? 57) then Some (n - 48)
   else if (97 <=? n) && (n <=? 102) then Some (n - 87)
   else if (65 <=? n) && (n <=? 70) then Some (n - 55)
   else None)%N.

Definition hex4 (a b c d : ascii) : option N :=
  match hex_value a, hex_value b, hex_value c, hex_value d with
  | Some x, Some y, Some z, Some w => Some (((x * 16 + y) * 16 + z) * 16 + w)%N
  | _, _, _, _ => None
  end.

(** The byte a one-letter escape stands for. *)
Definition unescape (c : ascii) : option N :=
  let n := N_of_ascii c in
  (if (n =? 34) || (n =? 92) || (n =? 47) then Some n
   else if n =? 98 then Some 8
   else if n =? 102 then Some 12
   else if n =? 110 then Some 10
   else if n =? 114 then Some 13
   else if n =? 116 then Some 9
   else None)%N.

(** What a string literal is made of: bytes copied from the text, and the
    16-bit units that its \u escapes name. *)
Inductive item := Byte (c : ascii) | Unit16 (n : N).

(** The inside of a string literal, from after its opening quote to its
    closing quote; control characters are not allowed unescaped. *)
Fixpoint scan_string (s : string) : option (list item * string) :=
  match s with
  | EmptyString => None
  | String c rest =>
      if Ascii.eqb c Text.dquote then Some ([], rest)
      else if Ascii.eqb c Text.backslash then
        match rest with
        | String e rest1 =>
            if Ascii.eqb e "u" then
              match rest1 with
              | String h1 (String h2 (String h3 (String h4 rest2))) =>
                  match hex4 h1 h2 h3 h4, scan_string rest2 with
                  | Some n, Some (items, r) => Some (Unit16 n :: items, r)
                  | _, _ => None
                  end
              | _ => None
              end
            else
              match unescape e, scan_string rest1 with
              | Some n, Some (items, r) => Some (Byte (ascii_of_N n) :: items, r)
              | _, _ => None
              end
        | EmptyString => None
        end
      else if (N_of_ascii c <? 32)%N then None
      else
        match scan_string rest with
        | Some (items, r) => Some (Byte c :: items, r)
        | None => None
        end
  end.

Definition is_high (n : N) : bool := ((55296 <=? n) && (n <=? 56319))%N.
Definition is_low (n : N) : bool := ((56320 <=? n) && (n <=? 57343))%N.

(** The text of a string literal; a high surrogate followed by a low one
    names one code point. *)
Fixpoint text_of (items : list item) : string :=
  match items with
  | [] => ""
  | Byte c :: rest => String c (text_of rest)
  | Unit16 hi :: rest =>
      match rest with
      | Unit16 lo :: rest' =>
          if is_high hi && is_low lo
          then Text.utf8 (65536 + (hi - 55296) * 1024 + (lo - 56320))%N +:+ text_of rest'
          else Text.utf8 hi +:+ text_of rest
      | _ => Text.utf8 hi +:+ text_of rest
      end
  end.

(** number = [ "-" ] int [ frac ] [ exp ], int without leading zeros. *)
Definition scan_number (s : string) : option (value * string) :=
  let '(sign, s1) :=
    match s with
    | String "-" r => ("-", r)
    | _ => ("", s)
    end in
  let '(int, s2) :=
    match s1 with
    | String "0" r => ("0", r)
    | _ => span_digits s1
    end in
  if String.eqb int "" then None
  else
    let '(frac, s3) :=
      match s2 with
      | String "." r =>
          let '(ds, r') := span_digits r in
          if String.eqb ds "" then ("", s2) else ("." +:+ ds, r')
      | _ => ("", s2)
      end in
    let '(exp, s4) :=
      match s3 with
      | String e r =>
          if Ascii.eqb e "e" || Ascii.eqb e "E" then
            let '(sg, r1) :=
              match r with
              | String "+" r' => ("+", r')
              | String "-" r' => ("-", r')
              | _ => ("", r)
              end in
            let '(ds, r2) := span_digits r1 in
            if String.eqb ds "" then ("", s3) else (String e sg +:+ ds, r2)
          else ("", s3)
      | EmptyString => ("", s3)
      end in
    if String.eqb frac "" && String.eqb exp ""
    then Some (VInt (if String.eqb sign "-" then - digits_value 0 int else digits_value 0 int), s4)
    else Some (VFloat (parse_float (sign +:+ int +:+ frac +:+ exp)), s4).

(** [s] without the prefix [p], when it starts with it. *)
Fixpoint strip_prefix (p s : string) : option string :=
  match p, s with
  | EmptyString, _ => Some s
  | String a p', String b s' => if Ascii.eqb a b then strip_prefix p' s' else None
  | String _ _, EmptyString => None
  end.

(** Setting a key of a dict: a key met again keeps its place and takes
    the new value. *)
Fixpoint dict_set (k : string) (v : value) (pairs : list (string * value)) :=
  match pairs with
  | [] => [(k, v)]
  | (k', v') :: rest =>
      if String.eqb k k' then (k, v) :: rest else (k', v') :: dict_set k v rest
  end.

(** One value at the head of the text, and the text after it. The three
    functions descend together; [fuel] bounds the number of nested calls. *)
Fixpoint scan_once (fuel : nat) (s : string) : option (value * string) :=
  match fuel with
  | O => None
  | S fuel' =>
      match s with
      | EmptyString => None
      | String c rest =>
          if Ascii.eqb c Text.dquote then
            match scan_string rest with
            | Some (items, r) => Some (VStr (text_of items), r)
            | None => None
            end
          else if Ascii.eqb c "{" then
            match skip_ws rest with
            | String "}" r => Some (VDict [], r)
            | body => scan_members fuel' body []
            end
          else if Ascii.eqb c "[" then
            match skip_ws rest with
            | String "]" r => Some (VList [], r)
            | body => scan_elements fuel' body []
            end
          else if Ascii.eqb c "n" then option_map (pair VNone) (strip_prefix "null" s)
          else if Ascii.eqb c "t" then option_map (pair (VBool true)) (strip_prefix "true" s)
          else if Ascii.eqb c "f" then option_map (pair (VBool false)) (strip_prefix "false" s)
          else scan_number s
      end
  end
with scan_elements (fuel : nat) (s : string) (acc : list value) : option (value * string) :=
  match fuel with
  | O => None
  | S fuel' =>
      match scan_once fuel' s with
      | Some (v, r) =>
          match skip_ws r with
          | String "," r' => scan_elements fuel' (skip_ws r') (acc ++ [v])
          | String "]" r' => Some (VList (acc ++ [v]), r')
          | _ => None
          end
      | None => None
      end
  end
with scan_members (fuel : nat) (s : string) (acc : list (string * value))
  : option (value * string) :=
  match fuel with
  | O => None
  | S fuel' =>
      match s with
      | String q rest =>
          if Ascii.eqb q Text.dquote then
            match scan_string rest with
            | Some (items, r) =>
                match skip_ws r with
                | String ":" r1 =>
                    match scan_once fuel' (skip_ws r1) with
                    | Some (v, r2) =>
                        let acc' := dict_set (text_of items) v acc in
                        match skip_ws r2 with
                        | String "," r3 => scan_members fuel' (skip_ws r3) acc'
                        | String "}" r3 => Some (VDict acc', r3)
                        | _ => None
                        end
                    | None => None
                    end
                | _ => None
                end
            | None => None
            end
          else None
      | EmptyString => None
      end
  end.

(** A JSON document: one value between optional white space. *)
Definition loads (s : string) : option value :=
  match scan_once (2 * String.length s + 2) (skip_ws s) with
  | Some (v, r) => if String.eqb (skip_ws r) "" then Some v else None
  | None => None
  end.

End Decoder.

Definition is_json (s : string) : bool :=
  match loads (fun _ => PrimFloat.zero) s with
  | Some _ => true
  | None => false
  end.

End JSON.

(** ** Exceptions and computations *)

(** The classes the handlers of the program tell apart. [sub] names the
    concrete subclass (["HTTPError"], ["ConnectionError"], ...). *)
Inductive exn_class : Type :=
| RequestException (sub : string)   (* requests.exceptions.RequestException and below *)
| BotoCoreError (sub : string)      (* botocore.exceptions.BotoCoreError and below *)
| ClientError                       (* botocore.exceptions.ClientError *)
| Exception (name : string).        (* any other subclass of Exception *)

(** An exception: its class and its message, [str(e)]. *)
Record exn := { exn_cls : exn_class; exn_str : string }.

Inductive Result (A : Type) : Type :=
| Return (a : A)
| Raise (e : exn).
Arguments Return {A} a.
Arguments Raise {A} e.

Module logging.
Definition DEBUG : Z := 10.
Definition INFO : Z := 20.
Definition WARNING : Z := 30.
Definition ERROR : Z := 40.
Definition CRITICAL : Z := 50.
Definition NOTSET : Z := 0.
End logging.

(** An HTTP request as [requests.request] receives it. *)
Record Request := {
  req_method : string;
  req_url : string;
  req_headers : list (string * string);
  req_params : option (list (string * string))
}.

(** What the program reads of a [requests.Response]. *)
Record Response := {
  status_code : Z;
  reason : string;
  url : string;
  text : string
}.

(** The keyword arguments of [put_object]. *)
Record PutObject := { Body : string; Bucket : string; Key : string }.

(** What the program does that can be seen from outside, in order. *)
Inductive Event : Type :=
| Log (name : string) (levelno : Z) (message : string)
| Http (request : Request)
| Put (object : PutObject).

(** [objects] maps (bucket, key) to the body stored there. *)
Record World := {
  trace : list Event;
  objects : gmap (string * string) string
}.

Definition is_external (e : Event) : bool :=
  match e with
  | Log _ _ _ => false
  | Http _ | Put _ => true
  end.

(** The requests and puts made so far: what the provider and the store
    have seen of the program. *)
Definition external (t : list Event) : list Event := List.filter is_external t.

Record Env := {
  printer : Printer;
  requests_request : list Event -> Request -> Result Response;
  json_loads : string -> Result value;
  put_object : list Event -> PutObject -> Result value
}.

Definition M (A : Type) : Type := World -> Result A * World.

Definition ret {A} (a : A) : M A := fun w => (Return a, w).

Definition raise {A} (e : exn) : M A := fun w => (Raise e, w).

Definition bind {A B} (m : M A) (k : A -> M B) : M B :=
  fun w =>
    match m w with
    | (Return a, w') => k a w'
    | (Raise e, w') => (Raise e, w')
    end.

(** [try: body / except <catches> as e: handler e]. *)
Definition try_except {A} (body : M A) (catches : exn -> bool) (handler : exn -> M A) : M A :=
  fun w =>
    match body w with
    | (Return a, w') => (Return a, w')
    | (Raise e, w') => if catches e then handler e w' else (Raise e, w')
    end.

Definition emit (e : Event) : M unit :=
  fun w => (Return tt, {| trace := trace w ++ [e]; objects := objects w |}).

Declare Scope py_scope.
Delimit Scope py_scope with py.
Notation "x <- m ;; k" := (bind m (fun x => k))
  (at level 100, m at next level, right associativity) : py_scope.
Notation "m ;; k" := (bind m (fun _ => k))
  (at level 100, right associativity) : py_scope.
Open Scope py_scope.

Definition isinstance_RequestException (e : exn) : bool :=
  match exn_cls e with
  | RequestException _ => true
  | _ => false
  end.

(** [isinstance(e, (BotoCoreError, ClientError))]. *)
Definition isinstance_BotoCoreError_ClientError (e : exn) : bool :=
  match exn_cls e with
  | BotoCoreError _ | ClientError => true
  | _ => false
  end.

Definition isinstance_Exception (e : exn) : bool :=
  match exn_cls e with
  | RequestException _ | BotoCoreError _ | ClientError | Exception _ => true
  end.

(** ** logger.py *)

Module logger.

(** A [log_this] wraps the [logging] logger of its name; its level is also
    the level of its file and console handlers. *)
Record log_this := { name : string; level : Z }.

(** [self.logger.log(levelno, message)]: a record below the level is dropped,
    any other goes to the handlers. *)
Definition log (self : log_this) (levelno : Z) (message : string) : M unit :=
  if level self <=? levelno then emit (Log (name self) levelno message) else ret tt.

Definition info (self : log_this) (message : string) : M unit :=
  log self logging.INFO message.

Definition debug (self : log_this) (message : string) : M unit :=
  log self logging.DEBUG message.

Definition warning (self : log_this) (message : string) : M unit :=
  log self logging.WARNING message.

Definition error (self : log_this) (message : string) : M unit :=
  log self logging.ERROR message.

Definition critical (self : log_this) (message : string) : M unit :=
  log self logging.CRITICAL message.

End logger.

(** ** The requests library, as far as the client uses it *)

Module requests.

Definition HTTPError (message : string) : exn :=
  {| exn_cls := RequestException "HTTPError"; exn_str := message |}.

(** [requests.request(method, url, headers=..., params=...)]: the request
    goes out and the provider answers or the transport fails. *)
Definition request (env : Env) (method url : string) (headers : list (string * string))
  (params : option (list (string * string))) : M Response :=
  fun w =>
    let req := {| req_method := method; req_url := url;
                  req_headers := headers; req_params := params |} in
    (requests_request env (external (trace w)) req,
     {| trace := trace w ++ [Http req]; objects := objects w |}).

(** The message [Response.raise_for_status] builds: set for the 4xx and the
    5xx status codes only. *)
Definition http_error_msg (r : Response) : option string :=
  if (400 <=? status_code r) && (status_code r <? 500) then
    Some (Text.decimal (status_code r) +:+ " Client Error: " +:+ reason r
          +:+ " for url: " +:+ url r)
  else if (500 <=? status_code r) && (status_code r <? 600) then
    Some (Text.decimal (status_code r) +:+ " Server Error: " +:+ reason r
          +:+ " for url: " +:+ url r)
  else None.

Definition raise_for_status (r : Response) : M unit :=
  match http_error_msg r with
  | Some msg => raise (HTTPError msg)
  | None => ret tt
  end.

(** [Response.ok], which is also the truth value of a response. *)
Definition ok (r : Response) : bool :=
  match http_error_msg r with
  | Some _ => false
  | None => true
  end.

(** [Response.json()]. *)
Definition json (env : Env) (r : Response) : M value :=
  fun w => (json_loads env (text r), w).

End requests.

(** ** github_api.py *)

Module github_api.

Definition logger : logger.log_this :=
  {| logger.name := "github_api"; logger.level := logging.DEBUG |}.

Record GitHubAPI := {
  base_url : string;
  headers : list (string * string)
}.

Definition __init__ (base_url token : string) : M GitHubAPI :=
  let self := {| base_url := base_url;
                 headers := [("Authorization", "token " +:+ token)] |} in
  logger.info logger "GitHub API client initialized" ;;
  ret self.

Section Client.
Variable env : Env.

Definition handle_request_error (self : GitHubAPI) (error : exn) : M unit :=
  logger.error logger ("Error during request: " +:+ exn_str error).

Definition send_http_request (self : GitHubAPI) (url method : string)
  (params : option (list (string * string))) : M (option Response) :=
  try_except
    (response <- requests.request env method url (headers self) params ;;
     requests.raise_for_status response ;;
     logger.info logger "Request successful" ;;
     ret (Some response))
    isinstance_RequestException
    (fun error =>
       handle_request_error self error ;;
       ret None).

Definition make_request (self : GitHubAPI) (endpoint method : string)
  (params : option (list (string * string))) : M value :=
  let url := base_url self +:+ endpoint in
  logger.info logger ("Making a " +:+ method +:+ " request to " +:+ url) ;;
  response <- send_http_request self url method params ;;
  match response with
  | Some r => if requests.ok r then requests.json env r else ret VNone
  | None => ret VNone
  end.

Definition get_user_details (self : GitHubAPI) (username : string) : M value :=
  logger.info logger ("Fetching user details for " +:+ username) ;;
  make_request self ("users/" +:+ username) "GET" None.

Definition get_user_repos (self : GitHubAPI) (username : string) : M value :=
  logger.info logger ("Fetching repositories for " +:+ username) ;;
  make_request self ("users/" +:+ username +:+ "/repos") "GET" None.

End Client.

(** The statements of the module itself, run when it is imported. *)
Definition on_import : M unit := logger.info logger "GitHub API initialized".

End github_api.

(** ** s3_uploader.py *)

Module s3_uploader.

Definition logger : logger.log_this :=
  {| logger.name := "s3_uploader"; logger.level := logging.DEBUG |}.

(** The [s3_client] attribute is the client of the environment. *)
Record S3Uploader := { bucket_name : string }.

Definition __init__ (bucket_name : string) : M S3Uploader :=
  let self := {| bucket_name := bucket_name |} in
  logger.info logger "S3 Uploader initialized" ;;
  ret self.

Section Uploader.
Variable env : Env.

(** [self.s3_client.put_object(Body=..., Bucket=..., Key=...)]: when the
    store accepts the put, the object at the key is replaced. *)
Definition s3_client_put_object (body bucket key : string) : M value :=
  fun w =>
    let p := {| Body := body; Bucket := bucket; Key := key |} in
    let t := trace w ++ [Put p] in
    match put_object env (external (trace w)) p with
    | Return response =>
        (Return response, {| trace := t; objects := <[(bucket, key) := body]> (objects w) |})
    | Raise e => (Raise e, {| trace := t; objects := objects w |})
    end.

Definition log_s3_upload_error (self : S3Uploader) (error : exn) : M unit :=
  logger.error logger ("Error uploading data to S3: " +:+ exn_str error).

Definition upload_data_to_s3 (self : S3Uploader) (data : value) (key : string) : M value :=
  try_except
    (response <- s3_client_put_object (Py.str (printer env) data) (bucket_name self) key ;;
     logger.info logger ("Data uploaded to " +:+ bucket_name self +:+ "/" +:+ key) ;;
     ret response)
    isinstance_BotoCoreError_ClientError
    (fun error =>
       log_s3_upload_error self error ;;
       ret VNone).

End Uploader.

(** The statements of the module itself, run when it is imported. *)
Definition on_import : M unit := logger.info logger "S3 Uploader initialized".

End s3_uploader.

(** ** What the entry point reads *)

(** The text files that [open] finds and the YAML parser: what [main.py]
    reads besides the network and the store. *)
Record Host := {
  open_text : string -> Result string;   (* open(path, "r"): the text of the file, or its OSError *)
  yaml_parse : string -> Result value    (* the parser behind yaml.safe_load, on a text *)
}.

Module yaml.

(** [yaml.safe_load(file)] on an open file. The parser reads the stream from
    where it stands up to its end, so nothing is left after it; a stream at
    its end holds no document, and the result is [None]. The second component
    is what is left of the stream. *)
Definition safe_load (host : Host) (stream : string) : M (value * string) :=
  if String.eqb stream "" then ret (VNone, "")
  else
    match yaml_parse host stream with
    | Return v => ret (v, "")
    | Raise e => raise e
    end.

End yaml.

Module builtins.

Definition TypeError (message : string) : exn :=
  {| exn_cls := Exception "TypeError"; exn_str := message |}.

Definition KeyError (message : string) : exn :=
  {| exn_cls := Exception "KeyError"; exn_str := message |}.

Fixpoint dict_get (key : string) (pairs : list (string * value)) : option value :=
  match pairs with
  | [] => None
  | (k, v) :: rest => if String.eqb key k then Some v else dict_get key rest
  end.

(** [v[key]] for a text [key]. *)
Definition getitem (pr : Printer) (v : value) (key : string) : M value :=
  match v with
  | VDict pairs =>
      match dict_get key pairs with
      | Some x => ret x
      | None => raise (KeyError (Py.repr_str pr key))
      end
  | VNone => raise (TypeError "'NoneType' object is not subscriptable")
  | VBool _ => raise (TypeError "'bool' object is not subscriptable")
  | VInt _ => raise (TypeError "'int' object is not subscriptable")
  | VFloat _ => raise (TypeError "'float' object is not subscriptable")
  | VStr _ => raise (TypeError "string indices must be integers, not 'str'")
  | VList _ => raise (TypeError "list indices must be integers or slices, not str")
  end.

End builtins.

(** ** main.py *)

Module main.

(** The logger that line 67 binds to the global [logger] when main.py is the
    file run, where [__name__] is ["__main__"]. The definitions of this module
    are main.py with that binding made; [main_py] below has the module with
    the binding made or not. *)
Definition logger : logger.log_this :=
  {| logger.name := "__main__"; logger.level := logging.DEBUG |}.

Section Orchestrator.
Variable env : Env.

(** The body of the [try] statement. *)
Definition upload_github_data_to_s3_body (api_client : github_api.GitHubAPI)
  (uploader : s3_uploader.S3Uploader) (username : string) : M unit :=
  user_details <- github_api.get_user_details env api_client username ;;
  user_repos <- github_api.get_user_repos env api_client username ;;
  s3_uploader.upload_data_to_s3 env uploader user_details (username +:+ "_details.json") ;;
  s3_uploader.upload_data_to_s3 env uploader user_repos (username +:+ "_repos.json") ;;
  logger.info logger ("User Details and Repositories for '" +:+ username +:+ "' uploaded to S3").

(** The function has no [return]: it gives [None] when it ends. *)
Definition upload_github_data_to_s3 (api_client : github_api.GitHubAPI)
  (uploader : s3_uploader.S3Uploader) (username : string) : M value :=
  try_except
    (upload_github_data_to_s3_body api_client uploader username)
    isinstance_Exception
    (fun e =>
       logger.error logger ("An error occurred during data fetching or uploading: " +:+ exn_str e)) ;;
  ret VNone.

End Orchestrator.

Section EntryPoint.
Variable env : Env.
Variable host : Host.

(** [file] is the stream of the open file: what is left to read of it. *)
Definition load_configuration (file_name : string) : M value :=
  match open_text host file_name with
  | Raise e => raise e
  | Return file =>
      logger.debug logger ("Loading configuration from " +:+ file_name) ;;
      parsed <- yaml.safe_load host file ;;
      logger.debug logger ("Configuration: " +:+ Py.str (printer env) (fst parsed)) ;;
      logger.debug logger "Configuration loaded successfully" ;;
      result <- yaml.safe_load host (snd parsed) ;;
      ret (fst result)
  end.

(** [GitHubAPI(base_url, token)] on the values of the configuration: the
    header holds ["token "] followed by [str(token)]. A base URL that is not a
    text gives a client that [github_api.GitHubAPI] has no record for; building
    it logs all the same. *)
Definition GitHubAPI (base_url token : value) : M (option github_api.GitHubAPI) :=
  match base_url with
  | VStr b =>
      self <- github_api.__init__ b (Py.str (printer env) token) ;;
      ret (Some self)
  | _ =>
      logger.info github_api.logger "GitHub API client initialized" ;;
      ret None
  end.

(** The block under [if __name__ == "__main__":], from the binding of
    [logger] on; the two last lines of the file are comments. *)
Definition __main__ : M (option github_api.GitHubAPI) :=
  logger.info logger "Program started." ;;
  config <- load_configuration "config.yml" ;;
  github_base_url <- builtins.getitem (printer env) config "github_base_url" ;;
  github_token <- builtins.getitem (printer env) config "github_token" ;;
  GitHubAPI github_base_url github_token.

(** [python main.py] on a machine where the three constructions of
    [log_this] succeed: the imports of lines 7 and 8 run the two modules, then
    the block runs. [main_py.program] has the constructions too. *)
Definition program : M (option github_api.GitHubAPI) :=
  s3_uploader.on_import ;;
  github_api.on_import ;;
  __main__.

End EntryPoint.
End main.

(** ** logger.py, handler by handler *)

(** [Module logger] above takes a log record as one event. Here is what
    stands behind it: the named loggers of the [logging] library, shared by
    the whole process, their handlers, and the lines that reach the log files
    and the console. *)
Module handlers.

Inductive Sink : Type :=
| File (path : string)
| Console.

Record Handler := { handler_level : Z; sink : Sink }.

Record Logger := { level : Z; handlers : list Handler }.

(** The state of the library: the root logger, the loggers that getLogger
    has made so far, by name, and the lines written, in order. *)
Record Logging := {
  root : Logger;
  loggers : gmap string Logger;
  written : list (Sink * string)
}.

(** The library as a process finds it: the root at WARNING, no handler. *)
Definition initial : Logging :=
  {| root := {| level := logging.WARNING; handlers := [] |}; loggers := ∅; written := [] |}.

(** The directories and files of the machine: [None] when the call
    succeeds, the OSError otherwise. *)
Record Disk := {
  makedirs : string -> option exn;      (* os.makedirs(path, exist_ok=True) *)
  open_append : string -> option exn    (* opening a file to append to it *)
}.

(** getLogger gives the root for the empty name and for the name of the
    root. *)
Definition is_root (name : string) : bool := String.eqb name "" || String.eqb name "root".

Definition logger_at (s : Logging) (name : string) : Logger :=
  if is_root name then root s
  else default {| level := logging.NOTSET; handlers := [] |} (loggers s !! name).

Definition update (name : string) (f : Logger -> Logger) (s : Logging) : Logging :=
  if is_root name
  then {| root := f (root s); loggers := loggers s; written := written s |}
  else {| root := root s; loggers := <[name := f (logger_at s name)]> (loggers s);
          written := written s |}.

(** [logging.getLogger(name)]: the logger of that name, made when it is not
    there yet. *)
Definition getLogger (name : string) (s : Logging) : Logging := update name (fun l => l) s.

Definition setLevel (name : string) (lvl : Z) (s : Logging) : Logging :=
  update name (fun l => {| level := lvl; handlers := handlers l |}) s.

Definition addHandler (name : string) (h : Handler) (s : Logging) : Logging :=
  update name (fun l => {| level := level l; handlers := handlers l ++ [h] |}) s.

(** The places of the dots of a name, from the last to the first. *)
Fixpoint dots (i : nat) (name : string) (found : list nat) : list nat :=
  match name with
  | EmptyString => found
  | String c rest => dots (S i) rest (if Ascii.eqb c "." then i :: found else found)
  end.

(** [name.rfind(".", 0, stop)]. *)
Definition rfind_dot (name : string) (stop : nat) : option nat :=
  List.find (fun i => Nat.ltb i stop) (dots 0 name []).

(** The logger above [name]: the longest prefix of the name that ends before
    a dot and is a logger, looked for as the library does, from the last dot
    down, the next dot being looked for two places before the last one
    found. [None] stands for the root. *)
Fixpoint parent_from (fuel : nat) (known : gmap string Logger) (name : string)
  (i : option nat) : option string :=
  match fuel, i with
  | S fuel', Some (S k) =>
      let prefix := String.substring 0 (S k) name in
      match known !! prefix with
      | Some _ => Some prefix
      | None => parent_from fuel' known name (rfind_dot name k)
      end
  | _, _ => None
  end.

Definition parent (known : gmap string Logger) (name : string) : option string :=
  parent_from (String.length name) known name (rfind_dot name (String.length name)).

(** The loggers above [name], nearest first, the root last. *)
Fixpoint above (fuel : nat) (s : Logging) (name : string) : list Logger :=
  match fuel with
  | O => [root s]
  | S fuel' =>
      match parent (loggers s) name with
      | Some p => logger_at s p :: above fuel' s p
      | None => [root s]
      end
  end.

(** The loggers a record of [name] passes through: every logger propagates. *)
Definition lineage (s : Logging) (name : string) : list Logger :=
  if is_root name then [root s]
  else logger_at s name :: above (String.length name) s name.

(** [Logger.getEffectiveLevel]: the first level that is set on the way up. *)
Definition getEffectiveLevel (s : Logging) (name : string) : Z :=
  match List.find (fun l => negb (level l =? 0)) (lineage s name) with
  | Some l => level l
  | None => logging.NOTSET
  end.

(** [Logger.isEnabledFor], nothing being disabled. *)
Definition isEnabledFor (s : Logging) (name : string) (levelno : Z) : bool :=
  (0 <? levelno) && (getEffectiveLevel s name <=? levelno).

Definition getLevelName (levelno : Z) : string :=
  if levelno =? logging.CRITICAL then "CRITICAL"
  else if levelno =? logging.ERROR then "ERROR"
  else if levelno =? logging.WARNING then "WARNING"
  else if levelno =? logging.INFO then "INFO"
  else if levelno =? logging.DEBUG then "DEBUG"
  else if levelno =? logging.NOTSET then "NOTSET"
  else "Level " +:+ Text.decimal levelno.

(** The format that logger.py gives its handlers:
    %(asctime)s - %(name)s - %(levelname)s - %(message)s. *)
Definition format (asctime name : string) (levelno : Z) (message : string) : string :=
  asctime +:+ " - " +:+ name +:+ " - " +:+ getLevelName levelno +:+ " - " +:+ message.

Definition record_name (name : string) : string := if is_root name then "root" else name.

(** [Logger.callHandlers]: every handler on the way up that admits the level
    writes the line; when there is no handler at all, the handler of last
    resort writes the bare message of a record at WARNING or above. *)
Definition callHandlers (s : Logging) (name : string) (levelno : Z) (asctime message : string)
  : list (Sink * string) :=
  let reached := flat_map handlers (lineage s name) in
  match reached with
  | [] => if logging.WARNING <=? levelno then [(Console, message)] else []
  | _ =>
      map (fun h => (sink h, format asctime (record_name name) levelno message))
          (List.filter (fun h => handler_level h <=? levelno) reached)
  end.

(** A [log_this] holds the logger of its name, which it shares with every
    other [log_this] of that name. *)
Record log_this := { logger : string }.

(** [log_this(name, log_file, level)], at a moment that strftime prints as
    [now]. *)
Definition __init__ (disk : Disk) (now : string) (name : string) (log_file : option string)
  (lvl : Z) (s : Logging) : Result log_this * Logging :=
  let s1 := setLevel name lvl (getLogger name s) in
  match (match log_file with
         | None => makedirs disk "./logs"
         | Some _ => None
         end) with
  | Some e => (Raise e, s1)
  | None =>
      let path :=
        match log_file with
        | None => "logs/" +:+ name +:+ "_" +:+ now +:+ ".log"
        | Some f => f
        end in
      match open_append disk path with
      | Some e => (Raise e, s1)
      | None =>
          let s2 := addHandler name {| handler_level := lvl; sink := File path |} s1 in
          let s3 := addHandler name {| handler_level := lvl; sink := Console |} s2 in
          (Return {| logger := name |}, s3)
      end
  end.

(** [self.logger.log(levelno, message)] at a moment that the formatter
    prints as [asctime]. *)
Definition log (self : log_this) (levelno : Z) (asctime message : string) (s : Logging)
  : Logging :=
  if isEnabledFor s (logger self) levelno
  then {| root := root s; loggers := loggers s;
          written := written s ++ callHandlers s (logger self) levelno asctime message |}
  else s.

Definition info (self : log_this) := log self logging.INFO.
Definition debug (self : log_this) := log self logging.DEBUG.
Definition warning (self : log_this) := log self logging.WARNING.
Definition error (self : log_this) := log self logging.ERROR.
Definition critical (self : log_this) := log self logging.CRITICAL.

End handlers.

(** ** main.py as a module *)

(** main.py with the state that [Module main] takes as settled: the global
    [logger], which line 67 binds under [if __name__ == "__main__":] and which
    is not bound in a module that was imported, and the constructions of
    [log_this], which raise when the disk does. *)
Module main_py.

Definition NameError (name : string) : exn :=
  {| exn_cls := Exception "NameError"; exn_str := "name '" +:+ name +:+ "' is not defined" |}.

(** A use of the global name [logger]. *)
Definition global_logger (bound : option logger.log_this) : M logger.log_this :=
  match bound with
  | Some l => ret l
  | None => raise (NameError "logger")
  end.

Section Orchestrator.
Variable env : Env.
Variable bound : option logger.log_this.

(** The body of the [try] statement. *)
Definition upload_github_data_to_s3_body (api_client : github_api.GitHubAPI)
  (uploader : s3_uploader.S3Uploader) (username : string) : M unit :=
  user_details <- github_api.get_user_details env api_client username ;;
  user_repos <- github_api.get_user_repos env api_client username ;;
  s3_uploader.upload_data_to_s3 env uploader user_details (username +:+ "_details.json") ;;
  s3_uploader.upload_data_to_s3 env uploader user_repos (username +:+ "_repos.json") ;;
  l <- global_logger bound ;;
  logger.info l ("User Details and Repositories for '" +:+ username +:+ "' uploaded to S3").

Definition upload_github_data_to_s3 (api_client : github_api.GitHubAPI)
  (uploader : s3_uploader.S3Uploader) (username : string) : M value :=
  try_except
    (upload_github_data_to_s3_body api_client uploader username)
    isinstance_Exception
    (fun e =>
       l <- global_logger bound ;;
       logger.error l ("An error occurred during data fetching or uploading: " +:+ exn_str e)) ;;
  ret VNone.

End Orchestrator.

Section EntryPoint.
Variable env : Env.
Variable host : Host.
Variable disk : handlers.Disk.
Variable now : string -> string.   (* the time stamp at the construction of each logger *)

(** [log_this(name, level=level)] as far as the records go: the logger of
    [Module logger], or what the disk raises when the logs directory or the log
    file cannot be made (logger.py, lines 61 to 63). *)
Definition log_this (name : string) (level : Z) : M logger.log_this :=
  match handlers.makedirs disk "./logs" with
  | Some e => raise e
  | None =>
      match handlers.open_append disk ("logs/" +:+ name +:+ "_" +:+ now name +:+ ".log") with
      | Some e => raise e
      | None => ret {| logger.name := name; logger.level := level |}
      end
  end.

(** The import of s3_uploader.py: its logger is made, then its record is
    logged with it. *)
Definition import_s3_uploader : M unit :=
  l <- log_this "s3_uploader" logging.DEBUG ;;
  logger.info l "S3 Uploader initialized".

Definition import_github_api : M unit :=
  l <- log_this "github_api" logging.DEBUG ;;
  logger.info l "GitHub API initialized".

(** The block under [if __name__ == "__main__":]: line 67 makes the logger
    and binds it; what follows is [main.__main__], the block with that logger
    bound. *)
Definition __main__ : M (option github_api.GitHubAPI) :=
  log_this "__main__" logging.DEBUG ;;
  main.__main__ env host.

(** [python main.py]. *)
Definition program : M (option github_api.GitHubAPI) :=
  import_s3_uploader ;;
  import_github_api ;;
  __main__.

End EntryPoint.
End main_py.

(** ** Vocabulary of the statements *)

(** [w] after the events [es]. *)
Definition extend (w : World) (es : list Event) : World :=
  {| trace := trace w ++ es; objects := objects w |}.

(** The keys of the puts of a trace, in order. *)
Fixpoint put_keys (t : list Event) : list string :=
  match t with
  | [] => []
  | Put p :: rest => Key p :: put_keys rest
  | _ :: rest => put_keys rest
  end.

(** The records that the logger of a name has logged in a trace. *)
Definition records_of (name : string) (t : list Event) : list Event :=
  List.filter (fun e => match e with
                        | Log n _ _ => String.eqb n name
                        | _ => false
                        end) t.

(** The log records of a trace, in order. *)
Definition log_records (t : list Event) : list Event :=
  List.filter (fun e => negb (is_external e)) t.

(** The sequence of [main.upload_github_data_to_s3] is interrupted: one of
    its four calls raises [e] and leaves the world [w_e], the calls before it
    having returned. *)
Inductive interrupted (env : Env) (api_client : github_api.GitHubAPI)
  (uploader : s3_uploader.S3Uploader) (username : string) (w : World) (e : exn) (w_e : World)
  : Prop :=
| in_get_user_details :
    github_api.get_user_details env api_client username w = (Raise e, w_e) ->
    interrupted env api_client uploader username w e w_e
| in_get_user_repos d w1 :
    github_api.get_user_details env api_client username w = (Return d, w1) ->
    github_api.get_user_repos env api_client username w1 = (Raise e, w_e) ->
    interrupted env api_client uploader username w e w_e
| in_upload_details d w1 r w2 :
    github_api.get_user_details env api_client username w = (Return d, w1) ->
    github_api.get_user_repos env api_client username w1 = (Return r, w2) ->
    s3_uploader.upload_data_to_s3 env uploader d (username +:+ "_details.json") w2
      = (Raise e, w_e) ->
    interrupted env api_client uploader username w e w_e
| in_upload_repos d w1 r w2 c w3 :
    github_api.get_user_details env api_client username w = (Return d, w1) ->
    github_api.get_user_repos env api_client username w1 = (Return r, w2) ->
    s3_uploader.upload_data_to_s3 env uploader d (username +:+ "_details.json") w2
      = (Return c, w3) ->
    s3_uploader.upload_data_to_s3 env uploader r (username +:+ "_repos.json") w3
      = (Raise e, w_e) ->
    interrupted env api_client uploader username w e w_e.

(** ** Sample environments *)

(** Providers and stores to run the program against. Their values hold no
    float and no character above 127, so any printing tables do. *)
Module Sample.

Definition tables : Printer :=
  {| float_repr := fun _ => "nan"; isprintable := fun _ => true |}.

(** A decoder that follows the JSON grammar; its message is the decoder's
    for a text rejected at its first character. *)
Definition decoder (s : string) : Result value :=
  match JSON.loads (fun _ => PrimFloat.zero) s with
  | Some v => Return v
  | None =>
      Raise {| exn_cls := RequestException "JSONDecodeError";
               exn_str := "Expecting value: line 1 column 1 (char 0)" |}
  end.

Definition q : string := String Text.dquote "".

(** The document {"login":"octocat","id":1}, and the value it denotes. *)
Definition octocat_json : string :=
  "{" +:+ q +:+ "login" +:+ q +:+ ":" +:+ q +:+ "octocat" +:+ q +:+ ","
  +:+ q +:+ "id" +:+ q +:+ ":1}".

Definition octocat : value := VDict [("login", VStr "octocat"); ("id", VInt 1)].

Definition answer (status : Z) (why body : string) (req : Request) : Result Response :=
  Return {| status_code := status; reason := why; url := req_url req; text := body |}.

(** A provider that knows octocat and an empty list of repositories. *)
Definition github (_ : list Event) (req : Request) : Result Response :=
  if String.eqb (req_url req) "https://api.example.com/users/octocat"
  then answer 200 "OK" octocat_json req
  else if String.eqb (req_url req) "https://api.example.com/users/octocat/repos"
  then answer 200 "OK" "[]" req
  else answer 404 "Not Found" "{}" req.

Definition not_found (_ : list Event) (req : Request) : Result Response :=
  answer 404 "Not Found" "{}" req.

Definition not_modified (_ : list Event) (req : Request) : Result Response :=
  answer 304 "Not Modified" "" req.

(** 200 with a page that is not JSON. *)
Definition html_page (_ : list Event) (req : Request) : Result Response :=
  answer 200 "OK" "<html></html>" req.

(** No details (404), and a page that is not JSON for the repositories. *)
Definition no_details_html_repos (_ : list Event) (req : Request) : Result Response :=
  if String.eqb (req_url req) "https://api.example.com/users/octocat"
  then answer 404 "Not Found" "{}" req
  else answer 200 "OK" "<html></html>" req.

Definition refused (_ : list Event) (_ : Request) : Result Response :=
  Raise {| exn_cls := RequestException "ConnectionError"; exn_str := "Connection refused" |}.

Definition accepting (_ : list Event) (_ : PutObject) : Result value :=
  Return (VDict [("ResponseMetadata", VDict [("HTTPStatusCode", VInt 200)])]).

Definition denying (_ : list Event) (_ : PutObject) : Result value :=
  Raise {| exn_cls := ClientError;
           exn_str := "An error occurred (AccessDenied) when calling the PutObject operation: Access Denied" |}.

Definition env (provider : list Event -> Request -> Result Response)
  (store : list Event -> PutObject -> Result value) : Env :=
  {| printer := tables; requests_request := provider; json_loads := decoder;
     put_object := store |}.

Definition api : github_api.GitHubAPI :=
  {| github_api.base_url := "https://api.example.com/";
     github_api.headers := [("Authorization", "token abc")] |}.

Definition uploader : s3_uploader.S3Uploader := {| s3_uploader.bucket_name := "vendor-data" |}.

Definition start : World := {| trace := []; objects := ∅ |}.

(** The requests of the two fetches for octocat. *)
Definition details_request : Request :=
  {| req_method := "GET"; req_url := "https://api.example.com/users/octocat";
     req_headers := [("Authorization", "token abc")]; req_params := None |}.

Definition repos_request : Request :=
  {| req_method := "GET"; req_url := "https://api.example.com/users/octocat/repos";
     req_headers := [("Authorization", "token abc")]; req_params := None |}.

(** What [decoder] raises. *)
Definition not_json : exn :=
  {| exn_cls := RequestException "JSONDecodeError";
     exn_str := "Expecting value: line 1 column 1 (char 0)" |}.

(** 301 without a place to go to, and a JSON body. *)
Definition moved (_ : list Event) (req : Request) : Result Response :=
  answer 301 "Moved Permanently" "[]" req.

(** A transport that fails outside the classes of requests. *)
Definition value_error : exn :=
  {| exn_cls := Exception "ValueError"; exn_str := "check_hostname requires server_hostname" |}.

Definition broken (_ : list Event) (_ : Request) : Result Response := Raise value_error.

(** A store whose client fails outside the classes of botocore. *)
Definition type_error : exn :=
  {| exn_cls := Exception "TypeError"; exn_str := "expected string or bytes-like object" |}.

Definition crashing (_ : list Event) (_ : PutObject) : Result value := Raise type_error.

(** A configuration file, its text and what the parser reads in it. *)
Definition config_text : string :=
  "github_base_url: https://api.example.com/" +:+ Text.chr 10
  +:+ "github_token: abc" +:+ Text.chr 10
  +:+ "s3_bucket_name: vendor-data" +:+ Text.chr 10.

Definition config : value :=
  VDict [("github_base_url", VStr "https://api.example.com/"); ("github_token", VStr "abc");
         ("s3_bucket_name", VStr "vendor-data")].

Definition no_such_file : exn :=
  {| exn_cls := Exception "FileNotFoundError";
     exn_str := "[Errno 2] No such file or directory: 'config.yml'" |}.

Definition yaml_error : exn :=
  {| exn_cls := Exception "ScannerError"; exn_str := "mapping values are not allowed here" |}.

(** A parser that reads the sample configuration and nothing else. *)
Definition parser (s : string) : Result value :=
  if String.eqb s config_text then Return config else Raise yaml_error.

(** A machine with the configuration file in place. *)
Definition configured : Host :=
  {| open_text := fun path => if String.eqb path "config.yml" then Return config_text
                              else Raise no_such_file;
     yaml_parse := parser |}.

(** A machine without any file. *)
Definition bare : Host :=
  {| open_text := fun _ => Raise no_such_file; yaml_parse := parser |}.

(** A machine whose configuration file is not YAML. *)
Definition garbled : Host :=
  {| open_text := fun _ => Return "a: b: c"; yaml_parse := parser |}.

(** A disk that takes every directory and file, and one that takes none. *)
Definition disk : handlers.Disk :=
  {| handlers.makedirs := fun _ => None; handlers.open_append := fun _ => None |}.

Definition permission_denied : exn :=
  {| exn_cls := Exception "PermissionError";
     exn_str := "[Errno 13] Permission denied: './logs'" |}.

Definition read_only : handlers.Disk :=
  {| handlers.makedirs := fun _ => Some permission_denied;
     handlers.open_append := fun _ => Some permission_denied |}.

(** A store whose answer the client cannot parse: botocore raises its
    ResponseParserError, which derives from Exception. *)
Definition parser_error : exn :=
  {| exn_cls := Exception "ResponseParserError";
     exn_str := "Unable to parse response (syntax error: line 1, column 0), invalid XML received" |}.

Definition unparsable (_ : list Event) (_ : PutObject) : Result value := Raise parser_error.

(** One time stamp for every logger. *)
Definition stamp (_ : string) : string := "20240101120000".

(** What [denying] raises. *)
Definition access_denied : exn :=
  {| exn_cls := ClientError;
     exn_str := "An error occurred (AccessDenied) when calling the PutObject operation: Access Denied" |}.

End Sample.

(** ** Basic facts *)

Lemma extend_extend (w : World) (es fs : list Event) :
  extend (extend w es) fs = extend w (es ++ fs).
Proof. unfold extend. cbn. rewrite <- app_assoc. reflexivity. Qed.

Lemma external_app (t u : list Event) : external (t ++ u) = external t ++ external u.
Proof. unfold external. apply List.filter_app. Qed.

(** A log record is not seen outside. *)
Lemma external_snoc_log (t : list Event) name levelno message :
  external (t ++ [Log name levelno message]) = external t.
Proof. rewrite external_app. cbn. apply app_nil_r. Qed.

Lemma put_keys_app (t u : list Event) : put_keys (t ++ u) = put_keys t ++ put_keys u.
Proof.
  induction t as [|ev t IH]; cbn; [reflexivity|].
  destruct ev; cbn; rewrite IH; reflexivity.
Qed.


Lemma http_error_msg_spec (r : Response) :
  requests.http_error_msg r =
    if (400 <=? status_code r) && (status_code r <? 600)
    then Some (Text.decimal (status_code r)
               +:+ (if status_code r <? 500 then " Client Error: " else " Server Error: ")
               +:+ reason r +:+ " for url: " +:+ url r)
    else None.
Proof.
  unfold requests.http_error_msg.
  destruct (400 <=? status_code r) eqn:H4, (status_code r <? 500) eqn:H5,
    (500 <=? status_code r) eqn:H5', (status_code r <? 600) eqn:H6; cbn; try reflexivity; lia.
Qed.

(** ** The client, case by case *)

Section ClientFacts.
Variable env : Env.
Variable self : github_api.GitHubAPI.

(** [make_request] in one table: what the provider answers decides the
    result and the records logged. *)
Lemma make_request_cases (endpoint method : string) (params : option (list (string * string)))
  (w : World) :
  let req := {| req_method := method; req_url := github_api.base_url self +:+ endpoint;
                req_headers := github_api.headers self; req_params := params |} in
  let making := Log "github_api" logging.INFO
                  ("Making a " +:+ method +:+ " request to " +:+ req_url req) in
  github_api.make_request env self endpoint method params w =
  match requests_request env (external (trace w)) req with
  | Raise e =>
      if isinstance_RequestException e
      then (Return VNone,
            extend w [making; Http req;
                      Log "github_api" logging.ERROR ("Error during request: " +:+ exn_str e)])
      else (Raise e, extend w [making; Http req])
  | Return r =>
      match requests.http_error_msg r with
      | Some msg =>
          (Return VNone,
           extend w [making; Http req;
                     Log "github_api" logging.ERROR ("Error during request: " +:+ msg)])
      | None =>
          (json_loads env (text r),
           extend w [making; Http req; Log "github_api" logging.INFO "Request successful"])
      end
  end.
Proof.
  unfold github_api.make_request, github_api.send_http_request, try_except, bind,
    requests.request, requests.raise_for_status, requests.ok, requests.json,
    github_api.handle_request_error, extend.
  cbn. rewrite external_snoc_log.
  destruct (requests_request env _ _) as [r|e]; cbn.
  - destruct (requests.http_error_msg r) eqn:Hm; cbn.
    + rewrite <- !app_assoc. reflexivity.
    + rewrite Hm. rewrite <- !app_assoc. reflexivity.
  - destruct (isinstance_RequestException e); cbn; rewrite <- ?app_assoc; reflexivity.
Qed.

Lemma get_user_details_unfold (username : string) (w : World) :
  github_api.get_user_details env self username w =
  github_api.make_request env self ("users/" +:+ username) "GET" None
    (extend w [Log "github_api" logging.INFO ("Fetching user details for " +:+ username)]).
Proof. reflexivity. Qed.

Lemma get_user_repos_unfold (username : string) (w : World) :
  github_api.get_user_repos env self username w =
  github_api.make_request env self ("users/" +:+ username +:+ "/repos") "GET" None
    (extend w [Log "github_api" logging.INFO ("Fetching repositories for " +:+ username)]).
Proof. reflexivity. Qed.

(** Whatever the answer, [make_request] sends one request, the one built
    from its arguments, and leaves the buckets alone. *)
Lemma make_request_effect (endpoint method : string) (params : option (list (string * string)))
  (w : World) :
  let w' := snd (github_api.make_request env self endpoint method params w) in
  external (trace w') =
    external (trace w) ++
      [Http {| req_method := method; req_url := github_api.base_url self +:+ endpoint;
               req_headers := github_api.headers self; req_params := params |}]
  /\ put_keys (trace w') = put_keys (trace w)
  /\ objects w' = objects w.
Proof.
  cbn zeta. rewrite make_request_cases. cbn zeta.
  destruct (requests_request env _ _) as [r|e];
    [destruct (requests.http_error_msg r) | destruct (isinstance_RequestException e)];
    cbn; rewrite external_app, put_keys_app; cbn; rewrite ?app_nil_r; auto.
Qed.

End ClientFacts.

(** ** The API client: claims C1, C4, C8 and C9 *)

Section ClientClaims.
Variable env : Env.

(** C1, as amended. For every endpoint, when the request fails in transport
    (requests.request raises a RequestException) or the provider answers with a
    4xx or 5xx status, make_request catches the failure, logs exactly one error
    record that holds the error detail, after the record of the request made,
    and returns None: no exception reaches the caller. *)
Theorem C1_failed_fetch_returns_absent (self : github_api.GitHubAPI) (endpoint method : string)
  (params : option (list (string * string))) (w : World) (detail : string) :
  let req := {| req_method := method; req_url := github_api.base_url self +:+ endpoint;
                req_headers := github_api.headers self; req_params := params |} in
  let answer := requests_request env (external (trace w)) req in
  (exists e, answer = Raise e /\ isinstance_RequestException e = true /\ detail = exn_str e)
  \/ (exists r, answer = Return r /\ 400 <= status_code r < 600 /\
        detail = Text.decimal (status_code r)
                 +:+ (if status_code r <? 500 then " Client Error: " else " Server Error: ")
                 +:+ reason r +:+ " for url: " +:+ url r) ->
  github_api.make_request env self endpoint method params w =
    (Return VNone,
     extend w [Log "github_api" logging.INFO
                 ("Making a " +:+ method +:+ " request to " +:+ req_url req);
               Http req;
               Log "github_api" logging.ERROR ("Error during request: " +:+ detail)]).
Proof.
  intros req answer H. rewrite make_request_cases. fold req. fold answer.
  destruct H as [(e & -> & He & ->) | (r & -> & Hs & ->)].
  - rewrite He. reflexivity.
  - rewrite http_error_msg_spec.
    replace ((400 <=? status_code r) && (status_code r <? 600)) with true
      by (symmetry; apply andb_true_iff; split; [apply Z.leb_le | apply Z.ltb_lt]; lia).
    reflexivity.
Qed.

(** C9. For every response with a 2xx status whose body the JSON decoder
    rejects, make_request raises the decoder's exception to its caller: the
    decoding comes after the try block of send_http_request, and the request is
    logged as successful. *)
Theorem C9_undecodable_body_raises (self : github_api.GitHubAPI) (endpoint method : string)
  (params : option (list (string * string))) (w : World) (r : Response) (e : exn) :
  let req := {| req_method := method; req_url := github_api.base_url self +:+ endpoint;
                req_headers := github_api.headers self; req_params := params |} in
  requests_request env (external (trace w)) req = Return r ->
  200 <= status_code r < 300 ->
  json_loads env (text r) = Raise e ->
  github_api.make_request env self endpoint method params w =
    (Raise e,
     extend w [Log "github_api" logging.INFO
                 ("Making a " +:+ method +:+ " request to " +:+ req_url req);
               Http req;
               Log "github_api" logging.INFO "Request successful"]).
Proof.
  intros req Hr Hs He. rewrite make_request_cases. fold req. rewrite Hr.
  rewrite http_error_msg_spec.
  replace ((400 <=? status_code r) && (status_code r <? 600)) with false
    by (symmetry; apply andb_false_iff; left; apply Z.leb_gt; lia).
  rewrite He. reflexivity.
Qed.

(** C8. For every username, when the provider answers the request of
    get_user_details (of get_user_repos) with status 200 and a body that
    decodes to v, the call returns v itself, and logs the fetch, the request
    and its success. *)
Theorem C8_ok_response_returned_unchanged (self : github_api.GitHubAPI) (username : string)
  (w : World) (r : Response) (v : value) :
  status_code r = 200 ->
  json_loads env (text r) = Return v ->
  let details := {| req_method := "GET";
                    req_url := github_api.base_url self +:+ "users/" +:+ username;
                    req_headers := github_api.headers self; req_params := None |} in
  let repos := {| req_method := "GET";
                  req_url := github_api.base_url self +:+ "users/" +:+ username +:+ "/repos";
                  req_headers := github_api.headers self; req_params := None |} in
  (requests_request env (external (trace w)) details = Return r ->
   github_api.get_user_details env self username w =
     (Return v,
      extend w [Log "github_api" logging.INFO ("Fetching user details for " +:+ username);
                Log "github_api" logging.INFO ("Making a GET request to " +:+ req_url details);
                Http details;
                Log "github_api" logging.INFO "Request successful"]))
  /\
  (requests_request env (external (trace w)) repos = Return r ->
   github_api.get_user_repos env self username w =
     (Return v,
      extend w [Log "github_api" logging.INFO ("Fetching repositories for " +:+ username);
                Log "github_api" logging.INFO ("Making a GET request to " +:+ req_url repos);
                Http repos;
                Log "github_api" logging.INFO "Request successful"])).
Proof.
  intros Hs Hv details repos.
  assert (Hm : requests.http_error_msg r = None).
  { rewrite http_error_msg_spec, Hs. reflexivity. }
  split; intros Hr.
  - rewrite get_user_details_unfold, make_request_cases. cbn zeta.
    cbn [extend trace]. rewrite external_snoc_log. fold details. rewrite Hr, Hm, Hv.
    rewrite extend_extend. reflexivity.
  - rewrite get_user_repos_unfold, make_request_cases. cbn zeta.
    cbn [extend trace]. rewrite external_snoc_log. fold repos. rewrite Hr, Hm, Hv.
    rewrite extend_extend. reflexivity.
Qed.

(** C4. A client built from base_url and token holds the one header
    Authorization: token <token>. Each call of make_request sends exactly one
    request, to base_url followed by the endpoint as it is, with that header;
    get_user_details asks for users/<username> and get_user_repos for
    users/<username>/repos, with GET and no parameters, whatever text the
    username is. *)
Theorem C4_request_url_and_header (base_url token : string) (w0 : World) :
  exists self w1,
    github_api.__init__ base_url token w0 = (Return self, w1)
    /\ github_api.base_url self = base_url
    /\ github_api.headers self = [("Authorization", "token " +:+ token)]
    /\ (forall endpoint method params w,
          external (trace (snd (github_api.make_request env self endpoint method params w))) =
          external (trace w) ++
            [Http {| req_method := method; req_url := base_url +:+ endpoint;
                     req_headers := [("Authorization", "token " +:+ token)];
                     req_params := params |}])
    /\ (forall username w,
          external (trace (snd (github_api.get_user_details env self username w))) =
          external (trace w) ++
            [Http {| req_method := "GET"; req_url := base_url +:+ "users/" +:+ username;
                     req_headers := [("Authorization", "token " +:+ token)];
                     req_params := None |}])
    /\ (forall username w,
          external (trace (snd (github_api.get_user_repos env self username w))) =
          external (trace w) ++
            [Http {| req_method := "GET";
                     req_url := base_url +:+ "users/" +:+ username +:+ "/repos";
                     req_headers := [("Authorization", "token " +:+ token)];
                     req_params := None |}]).
Proof.
  eexists. eexists. split; [reflexivity|].
  split; [reflexivity|]. split; [reflexivity|].
  split; [|split].
  - intros endpoint method params w.
    exact (proj1 (make_request_effect env _ endpoint method params w)).
  - intros username w. rewrite get_user_details_unfold.
    destruct (make_request_effect env
                {| github_api.base_url := base_url;
                   github_api.headers := [("Authorization", "token " +:+ token)] |}
                ("users/" +:+ username) "GET" None
                (extend w [Log "github_api" logging.INFO ("Fetching user details for " +:+ username)]))
      as (H & _). cbn zeta in H. rewrite H. cbn [extend trace github_api.base_url github_api.headers].
    rewrite external_snoc_log. reflexivity.
  - intros username w. rewrite get_user_repos_unfold.
    destruct (make_request_effect env
                {| github_api.base_url := base_url;
                   github_api.headers := [("Authorization", "token " +:+ token)] |}
                ("users/" +:+ username +:+ "/repos") "GET" None
                (extend w [Log "github_api" logging.INFO ("Fetching repositories for " +:+ username)]))
      as (H & _). cbn zeta in H. rewrite H. cbn [extend trace github_api.base_url github_api.headers].
    rewrite external_snoc_log. reflexivity.
Qed.

End ClientClaims.

(** ** The uploader and the orchestrator, case by case *)

Section UploadFacts.
Variable env : Env.

(** [upload_data_to_s3] in one table: what the store answers decides the
    result, the records logged and the object stored. *)
Lemma upload_data_to_s3_cases (self : s3_uploader.S3Uploader) (data : value) (key : string)
  (w : World) :
  let bucket := s3_uploader.bucket_name self in
  let p := {| Body := Py.str (printer env) data; Bucket := bucket; Key := key |} in
  s3_uploader.upload_data_to_s3 env self data key w =
  match put_object env (external (trace w)) p with
  | Return response =>
      (Return response,
       {| trace := trace w ++
                   [Put p;
                    Log "s3_uploader" logging.INFO ("Data uploaded to " +:+ bucket +:+ "/" +:+ key)];
          objects := <[(bucket, key) := Body p]> (objects w) |})
  | Raise e =>
      if isinstance_BotoCoreError_ClientError e
      then (Return VNone,
            extend w [Put p;
                      Log "s3_uploader" logging.ERROR ("Error uploading data to S3: " +:+ exn_str e)])
      else (Raise e, extend w [Put p])
  end.
Proof.
  unfold s3_uploader.upload_data_to_s3, s3_uploader.s3_client_put_object, try_except, bind,
    s3_uploader.log_s3_upload_error, extend.
  cbn. destruct (put_object env _ _) as [response|e]; cbn.
  - rewrite <- app_assoc. reflexivity.
  - destruct (isinstance_BotoCoreError_ClientError e); cbn; rewrite <- ?app_assoc; reflexivity.
Qed.

(** Whatever the store answers, [upload_data_to_s3] makes one put, of the
    text of the data at the key, first thing, and touches no other object. *)
Lemma upload_data_to_s3_effect (self : s3_uploader.S3Uploader) (data : value) (key : string)
  (w : World) :
  let bucket := s3_uploader.bucket_name self in
  let p := {| Body := Py.str (printer env) data; Bucket := bucket; Key := key |} in
  let w' := snd (s3_uploader.upload_data_to_s3 env self data key w) in
  (exists logs, trace w' = trace w ++ Put p :: logs /\ external logs = [] /\ put_keys logs = [])
  /\ (forall k, k <> (bucket, key) -> objects w' !! k = objects w !! k)
  /\ (forall response, put_object env (external (trace w)) p = Return response ->
        objects w' !! (bucket, key) = Some (Py.str (printer env) data)).
Proof.
  cbn zeta. rewrite upload_data_to_s3_cases. cbn zeta.
  destruct (put_object env _ _) as [response|e];
    [|destruct (isinstance_BotoCoreError_ClientError e)]; cbn.
  - split; [eexists; split; [reflexivity | split; reflexivity]|].
    split; [intros k Hk; apply lookup_insert_ne; congruence|].
    intros _ _. apply lookup_insert_eq.
  - split; [eexists; split; [reflexivity | split; reflexivity]|].
    split; [reflexivity | discriminate].
  - split; [exists []; split; [reflexivity | split; reflexivity]|].
    split; [reflexivity | discriminate].
Qed.


(** The two fetches put nothing and leave the buckets alone. *)
Lemma get_user_details_quiet (self : github_api.GitHubAPI) (username : string) (w : World) :
  let w' := snd (github_api.get_user_details env self username w) in
  put_keys (trace w') = put_keys (trace w) /\ objects w' = objects w.
Proof.
  cbn zeta. rewrite get_user_details_unfold.
  destruct (make_request_effect env self ("users/" +:+ username) "GET" None
              (extend w [Log "github_api" logging.INFO
                           ("Fetching user details for " +:+ username)])) as (_ & Hk & Ho).
  rewrite Hk, Ho. cbn [extend trace objects]. rewrite put_keys_app. cbn.
  rewrite app_nil_r. auto.
Qed.

Lemma get_user_repos_quiet (self : github_api.GitHubAPI) (username : string) (w : World) :
  let w' := snd (github_api.get_user_repos env self username w) in
  put_keys (trace w') = put_keys (trace w) /\ objects w' = objects w.
Proof.
  cbn zeta. rewrite get_user_repos_unfold.
  destruct (make_request_effect env self ("users/" +:+ username +:+ "/repos") "GET" None
              (extend w [Log "github_api" logging.INFO
                           ("Fetching repositories for " +:+ username)])) as (_ & Hk & Ho).
  rewrite Hk, Ho. cbn [extend trace objects]. rewrite put_keys_app. cbn.
  rewrite app_nil_r. auto.
Qed.

Variable api_client : github_api.GitHubAPI.
Variable uploader : s3_uploader.S3Uploader.
Variable username : string.

Let success : Event :=
  Log "__main__" logging.INFO
    ("User Details and Repositories for '" +:+ username +:+ "' uploaded to S3").

Let failure (e : exn) : Event :=
  Log "__main__" logging.ERROR
    ("An error occurred during data fetching or uploading: " +:+ exn_str e).

(** The orchestrator in one table, over the outcomes of its four calls. *)
Lemma upload_github_data_to_s3_cases (w : World) :
  main.upload_github_data_to_s3 env api_client uploader username w =
  match github_api.get_user_details env api_client username w with
  | (Raise e, w1) => (Return VNone, extend w1 [failure e])
  | (Return d, w1) =>
      match github_api.get_user_repos env api_client username w1 with
      | (Raise e, w2) => (Return VNone, extend w2 [failure e])
      | (Return r, w2) =>
          match s3_uploader.upload_data_to_s3 env uploader d (username +:+ "_details.json") w2 with
          | (Raise e, w3) => (Return VNone, extend w3 [failure e])
          | (Return _, w3) =>
              match s3_uploader.upload_data_to_s3 env uploader r
                      (username +:+ "_repos.json") w3 with
              | (Raise e, w4) => (Return VNone, extend w4 [failure e])
              | (Return _, w4) => (Return VNone, extend w4 [success])
              end
          end
      end
  end.
Proof.
  unfold main.upload_github_data_to_s3, main.upload_github_data_to_s3_body, try_except, bind.
  destruct (github_api.get_user_details env api_client username w) as [[d|e] w1];
    [|destruct e as [[]]; reflexivity].
  destruct (github_api.get_user_repos env api_client username w1) as [[r|e] w2];
    [|destruct e as [[]]; reflexivity].
  destruct (s3_uploader.upload_data_to_s3 env uploader d _ w2) as [[c|e] w3];
    [|destruct e as [[]]; reflexivity].
  destruct (s3_uploader.upload_data_to_s3 env uploader r _ w3) as [[c'|e] w4];
    [reflexivity|destruct e as [[]]; reflexivity].
Qed.

End UploadFacts.

(** ** The uploader and the orchestrator: claims C2, C5, C6, C7 *)

Section UploadClaims.
Variable env : Env.

(** C2, as amended. For every data value and key, upload_data_to_s3 puts
    the text str(data) as the body at the key in the bucket of the uploader.
    When the store accepts, the object at that key is that text and the store's
    answer is returned. When the store fails with a BotoCoreError or a
    ClientError, the error is caught, logged once with its message, and None is
    returned: nothing is raised to the caller. (Another exception of the store
    client is not caught.) *)
Theorem C2_upload_puts_text_and_catches_store_errors (self : s3_uploader.S3Uploader)
  (data : value) (key : string) (w : World) :
  let bucket := s3_uploader.bucket_name self in
  let p := {| Body := Py.str (printer env) data; Bucket := bucket; Key := key |} in
  let answer := put_object env (external (trace w)) p in
  (forall response, answer = Return response ->
     s3_uploader.upload_data_to_s3 env self data key w =
       (Return response,
        {| trace := trace w ++
                    [Put p;
                     Log "s3_uploader" logging.INFO
                       ("Data uploaded to " +:+ bucket +:+ "/" +:+ key)];
           objects := <[(bucket, key) := Py.str (printer env) data]> (objects w) |}))
  /\
  (forall error, answer = Raise error -> isinstance_BotoCoreError_ClientError error = true ->
     s3_uploader.upload_data_to_s3 env self data key w =
       (Return VNone,
        extend w [Put p;
                  Log "s3_uploader" logging.ERROR
                    ("Error uploading data to S3: " +:+ exn_str error)])).
Proof.
  intros bucket p answer. split.
  - intros response H. rewrite upload_data_to_s3_cases. cbn zeta. fold bucket p answer.
    rewrite H. reflexivity.
  - intros error H Hc. rewrite upload_data_to_s3_cases. cbn zeta. fold bucket p answer.
    rewrite H, Hc. reflexivity.
Qed.

Variable api_client : github_api.GitHubAPI.
Variable uploader : s3_uploader.S3Uploader.
Variable username : string.

(** The orchestrator of [Module main], its logger bound: it returns None
    and raises nothing. Either its four calls return, and then it has run them
    in order, each from the world the one before left, and has logged one
    success line; or one of the four calls raises, and then one error line with
    the message of the exception is logged after what the raising call left. *)
Lemma sequence_and_suppression_in_main (w : World) :
  exists w',
    main.upload_github_data_to_s3 env api_client uploader username w = (Return VNone, w')
    /\ ((exists d w1 r w2 c1 w3 c2 w4,
           github_api.get_user_details env api_client username w = (Return d, w1)
           /\ github_api.get_user_repos env api_client username w1 = (Return r, w2)
           /\ s3_uploader.upload_data_to_s3 env uploader d (username +:+ "_details.json") w2
              = (Return c1, w3)
           /\ s3_uploader.upload_data_to_s3 env uploader r (username +:+ "_repos.json") w3
              = (Return c2, w4)
           /\ w' = extend w4
                     [Log "__main__" logging.INFO
                        ("User Details and Repositories for '" +:+ username
                         +:+ "' uploaded to S3")]
           /\ external (trace w') =
              external (trace w) ++
                [Http {| req_method := "GET";
                         req_url := github_api.base_url api_client +:+ "users/" +:+ username;
                         req_headers := github_api.headers api_client; req_params := None |};
                 Http {| req_method := "GET";
                         req_url := github_api.base_url api_client
                                    +:+ "users/" +:+ username +:+ "/repos";
                         req_headers := github_api.headers api_client; req_params := None |};
                 Put {| Body := Py.str (printer env) d;
                        Bucket := s3_uploader.bucket_name uploader;
                        Key := username +:+ "_details.json" |};
                 Put {| Body := Py.str (printer env) r;
                        Bucket := s3_uploader.bucket_name uploader;
                        Key := username +:+ "_repos.json" |}])
        \/ (exists e w_e,
              interrupted env api_client uploader username w e w_e
              /\ w' = extend w_e
                        [Log "__main__" logging.ERROR
                           ("An error occurred during data fetching or uploading: "
                            +:+ exn_str e)])).
Proof.
  rewrite upload_github_data_to_s3_cases. cbn zeta.
  destruct (github_api.get_user_details env api_client username w) as [[d|e] w1] eqn:H1.
  2:{ eexists. split; [reflexivity|]. right. exists e, w1. split; [|reflexivity].
      apply in_get_user_details, H1. }
  destruct (github_api.get_user_repos env api_client username w1) as [[r|e] w2] eqn:H2.
  2:{ eexists. split; [reflexivity|]. right. exists e, w2. split; [|reflexivity].
      eapply in_get_user_repos; eassumption. }
  destruct (s3_uploader.upload_data_to_s3 env uploader d _ w2) as [[c1|e] w3] eqn:H3.
  2:{ eexists. split; [reflexivity|]. right. exists e, w3. split; [|reflexivity].
      eapply in_upload_details; eassumption. }
  destruct (s3_uploader.upload_data_to_s3 env uploader r _ w3) as [[c2|e] w4] eqn:H4.
  2:{ eexists. split; [reflexivity|]. right. exists e, w4. split; [|reflexivity].
      eapply in_upload_repos; eassumption. }
  eexists. split; [reflexivity|]. left. exists d, w1, r, w2, c1, w3, c2, w4.
  repeat (split; [first [assumption | reflexivity]|]).
  cbn [extend trace]. rewrite external_snoc_log.
  pose proof (upload_data_to_s3_effect env uploader r (username +:+ "_repos.json") w3) as E4.
  pose proof (upload_data_to_s3_effect env uploader d (username +:+ "_details.json") w2) as E3.
  cbn zeta in E3, E4. rewrite H3 in E3. rewrite H4 in E4. cbn [snd] in E3, E4.
  destruct E4 as ((l4 & -> & X4 & _) & _). destruct E3 as ((l3 & -> & X3 & _) & _).
  rewrite get_user_repos_unfold in H2. rewrite get_user_details_unfold in H1.
  pose proof (make_request_effect env api_client ("users/" +:+ username +:+ "/repos") "GET" None
                (extend w1 [Log "github_api" logging.INFO
                              ("Fetching repositories for " +:+ username)])) as E2.
  pose proof (make_request_effect env api_client ("users/" +:+ username) "GET" None
                (extend w [Log "github_api" logging.INFO
                             ("Fetching user details for " +:+ username)])) as E1.
  cbn zeta in E1, E2. rewrite H1 in E1. rewrite H2 in E2. cbn [snd extend trace] in E1, E2.
  rewrite external_snoc_log in E1, E2. destruct E1 as (E1 & _). destruct E2 as (E2 & _).
  rewrite !external_app. cbn [external List.filter is_external].
  fold (external l3). fold (external l4). rewrite X3, X4, E2, E1.
  rewrite <- !app_assoc. reflexivity.
Qed.

(** The orchestrator of [Module main], its logger bound: when none of the
    four calls raises, whatever they return, the success line is logged after
    them. *)
Lemma success_line_in_main (w : World)
  (d : value) (w1 : World) (r : value) (w2 : World) (c1 : value) (w3 : World)
  (c2 : value) (w4 : World) :
  github_api.get_user_details env api_client username w = (Return d, w1) ->
  github_api.get_user_repos env api_client username w1 = (Return r, w2) ->
  s3_uploader.upload_data_to_s3 env uploader d (username +:+ "_details.json") w2
    = (Return c1, w3) ->
  s3_uploader.upload_data_to_s3 env uploader r (username +:+ "_repos.json") w3
    = (Return c2, w4) ->
  main.upload_github_data_to_s3 env api_client uploader username w =
    (Return VNone,
     extend w4 [Log "__main__" logging.INFO
                  ("User Details and Repositories for '" +:+ username +:+ "' uploaded to S3")]).
Proof.
  intros H1 H2 H3 H4. rewrite upload_github_data_to_s3_cases. cbn zeta.
  rewrite H1, H2, H3, H4. reflexivity.
Qed.

End UploadClaims.

Section MoreUploadClaims.
Variable env : Env.
Variable api_client : github_api.GitHubAPI.
Variable uploader : s3_uploader.S3Uploader.
Variable username : string.



End MoreUploadClaims.

(** C6. Round trip: for every value, once the store has accepted the upload,
    the body read back at the key is exactly str(data), the text the
    interpreter prints for the value, not a JSON serialization of it. That text
    need not be a JSON document: the value that the JSON document
    {"login":"octocat","id":1} denotes is stored as
    {'login': 'octocat', 'id': 1}, which the JSON grammar rejects. *)
Theorem C6_round_trip_gives_str :
  (forall (env : Env) (self : s3_uploader.S3Uploader) (data : value) (key : string) (w : World)
          (response : value),
     put_object env (external (trace w))
       {| Body := Py.str (printer env) data; Bucket := s3_uploader.bucket_name self;
          Key := key |} = Return response ->
     objects (snd (s3_uploader.upload_data_to_s3 env self data key w))
       !! (s3_uploader.bucket_name self, key)
     = Some (Py.str (printer env) data))
  /\
  (exists data,
     is_structured data = true
     /\ (forall parse_float, JSON.loads parse_float Sample.octocat_json = Some data)
     /\ (forall pr, Py.str pr data = "{'login': 'octocat', 'id': 1}")
     /\ JSON.is_json "{'login': 'octocat', 'id': 1}" = false).
Proof.
  split.
  - intros env self data key w response H.
    destruct (upload_data_to_s3_effect env self data key w) as (_ & _ & S).
    eapply S, H.
  - exists Sample.octocat. split; [reflexivity|]. split; [intros pf; reflexivity|].
    split; [intros pr; reflexivity|]. reflexivity.
Qed.

(** ** The claims on sample runs *)

Import Sample.

(** A refused connection and a 404 answer both give None and one error
    record. *)
Lemma C1_failed_fetch_witness :
  github_api.make_request (env refused denying) api "users/octocat" "GET" None start =
    (Return VNone,
     extend start
       [Log "github_api" logging.INFO
          "Making a GET request to https://api.example.com/users/octocat";
        Http details_request;
        Log "github_api" logging.ERROR "Error during request: Connection refused"])
  /\
  github_api.make_request (env not_found denying) api "users/octocat" "GET" None start =
    (Return VNone,
     extend start
       [Log "github_api" logging.INFO
          "Making a GET request to https://api.example.com/users/octocat";
        Http details_request;
        Log "github_api" logging.ERROR
          "Error during request: 404 Client Error: Not Found for url: https://api.example.com/users/octocat"]).
Proof.
  split.
  - apply (C1_failed_fetch_returns_absent (env refused denying) api "users/octocat" "GET" None
             start "Connection refused").
    left. eexists. split; [reflexivity|]. split; reflexivity.
  - apply (C1_failed_fetch_returns_absent (env not_found denying) api "users/octocat" "GET" None
             start
             "404 Client Error: Not Found for url: https://api.example.com/users/octocat").
    right. eexists. split; [reflexivity|]. split; [cbn; lia | reflexivity].
Defined.

(** C1 as stated fails on a 3xx answer: 304 is not a 2xx status, yet
    make_request raises the decoder's exception on the empty body, and the only
    records logged are the request and its success. *)
Lemma C1_not_modified_raises :
  exists r,
    requests_request (env not_modified denying) (external (trace start)) details_request
      = Return r
    /\ status_code r = 304
    /\ ~ (200 <= status_code r < 300)
    /\ github_api.make_request (env not_modified denying) api "users/octocat" "GET" None start =
         (Raise not_json,
          extend start
            [Log "github_api" logging.INFO
               "Making a GET request to https://api.example.com/users/octocat";
             Http details_request;
             Log "github_api" logging.INFO "Request successful"]).
Proof.
  eexists. split; [reflexivity|]. split; [reflexivity|]. split; [cbn; lia|]. reflexivity.
Qed.

(** The store accepts: the text is stored. The store denies: None. *)
Lemma C2_upload_witness :
  s3_uploader.upload_data_to_s3 (env github accepting) uploader octocat "octocat_details.json"
    start =
    (Return (VDict [("ResponseMetadata", VDict [("HTTPStatusCode", VInt 200)])]),
     {| trace := [Put {| Body := "{'login': 'octocat', 'id': 1}"; Bucket := "vendor-data";
                         Key := "octocat_details.json" |};
                  Log "s3_uploader" logging.INFO
                    "Data uploaded to vendor-data/octocat_details.json"];
        objects := <[("vendor-data", "octocat_details.json") := "{'login': 'octocat', 'id': 1}"]>
                     ∅ |})
  /\
  s3_uploader.upload_data_to_s3 (env github denying) uploader octocat "octocat_details.json"
    start =
    (Return VNone,
     extend start
       [Put {| Body := "{'login': 'octocat', 'id': 1}"; Bucket := "vendor-data";
               Key := "octocat_details.json" |};
        Log "s3_uploader" logging.ERROR
          "Error uploading data to S3: An error occurred (AccessDenied) when calling the PutObject operation: Access Denied"]).
Proof.
  split.
  - apply (proj1 (C2_upload_puts_text_and_catches_store_errors (env github accepting) uploader
                    octocat "octocat_details.json" start)).
    reflexivity.
  - apply (proj2 (C2_upload_puts_text_and_catches_store_errors (env github denying) uploader
                    octocat "octocat_details.json" start) access_denied); reflexivity.
Defined.



(** The body read back for octocat. *)
Lemma C6_round_trip_witness :
  objects (snd (s3_uploader.upload_data_to_s3 (env github accepting) uploader octocat
                  "octocat_details.json" start))
    !! ("vendor-data", "octocat_details.json")
  = Some "{'login': 'octocat', 'id': 1}".
Proof.
  apply (proj1 C6_round_trip_gives_str (env github accepting) uploader octocat
           "octocat_details.json" start
           (VDict [("ResponseMetadata", VDict [("HTTPStatusCode", VInt 200)])])).
  reflexivity.
Defined.


(** The scenario of the specification: the mapping for octocat comes back
    as decoded, and so does the empty list of repositories. *)
Lemma C8_octocat_returned_unchanged :
  github_api.get_user_details (env github accepting) api "octocat" start =
    (Return (VDict [("login", VStr "octocat"); ("id", VInt 1)]),
     extend start
       [Log "github_api" logging.INFO "Fetching user details for octocat";
        Log "github_api" logging.INFO
          "Making a GET request to https://api.example.com/users/octocat";
        Http details_request;
        Log "github_api" logging.INFO "Request successful"])
  /\
  github_api.get_user_repos (env github accepting) api "octocat" start =
    (Return (VList []),
     extend start
       [Log "github_api" logging.INFO "Fetching repositories for octocat";
        Log "github_api" logging.INFO
          "Making a GET request to https://api.example.com/users/octocat/repos";
        Http repos_request;
        Log "github_api" logging.INFO "Request successful"]).
Proof.
  split.
  - apply (proj1 (C8_ok_response_returned_unchanged (env github accepting) api "octocat" start
                    {| status_code := 200; reason := "OK";
                       url := "https://api.example.com/users/octocat";
                       text := octocat_json |}
                    octocat eq_refl eq_refl)).
    reflexivity.
  - apply (proj2 (C8_ok_response_returned_unchanged (env github accepting) api "octocat" start
                    {| status_code := 200; reason := "OK";
                       url := "https://api.example.com/users/octocat/repos";
                       text := "[]" |}
                    (VList []) eq_refl eq_refl)).
    reflexivity.
Defined.

(** 200 with a page that is not JSON: the exception of the decoder reaches
    the caller. *)
Lemma C9_html_page_raises :
  github_api.make_request (env html_page accepting) api "users/octocat" "GET" None start =
    (Raise not_json,
     extend start
       [Log "github_api" logging.INFO
          "Making a GET request to https://api.example.com/users/octocat";
        Http details_request;
        Log "github_api" logging.INFO "Request successful"]).
Proof.
  apply (C9_undecodable_body_raises (env html_page accepting) api "users/octocat" "GET" None
           start
           {| status_code := 200; reason := "OK";
              url := "https://api.example.com/users/octocat"; text := "<html></html>" |}
           not_json).
  - reflexivity.
  - cbn. lia.
  - reflexivity.
Defined.


(** ** Further properties of the client *)

Section ClientMore.
Variable env : Env.
Variable self : github_api.GitHubAPI.

(** X1. An exception of the transport that is no RequestException is not
    caught by the client: make_request raises it to its caller after the
    request, and no error record is logged. *)
Theorem make_request_lets_other_exceptions_through (endpoint method : string)
  (params : option (list (string * string))) (w : World) (e : exn) :
  let req := {| req_method := method; req_url := github_api.base_url self +:+ endpoint;
                req_headers := github_api.headers self; req_params := params |} in
  requests_request env (external (trace w)) req = Raise e ->
  isinstance_RequestException e = false ->
  github_api.make_request env self endpoint method params w =
    (Raise e,
     extend w [Log "github_api" logging.INFO
                 ("Making a " +:+ method +:+ " request to " +:+ req_url req);
               Http req]).
Proof.
  intros req H He. rewrite make_request_cases. fold req. rewrite H, He. reflexivity.
Qed.

(** X2. Only the statuses 400 to 599 count as failures. An answer with any
    other status (1xx, 2xx, 3xx, or a code from 600 on) is logged as a success
    and its body is decoded: make_request gives what the decoder gives, value
    or exception. *)
Theorem make_request_decodes_every_other_status (endpoint method : string)
  (params : option (list (string * string))) (w : World) (r : Response) :
  let req := {| req_method := method; req_url := github_api.base_url self +:+ endpoint;
                req_headers := github_api.headers self; req_params := params |} in
  requests_request env (external (trace w)) req = Return r ->
  status_code r < 400 \/ 600 <= status_code r ->
  github_api.make_request env self endpoint method params w =
    (json_loads env (text r),
     extend w [Log "github_api" logging.INFO
                 ("Making a " +:+ method +:+ " request to " +:+ req_url req);
               Http req;
               Log "github_api" logging.INFO "Request successful"]).
Proof.
  intros req H Hs. rewrite make_request_cases. fold req. rewrite H.
  rewrite http_error_msg_spec.
  replace ((400 <=? status_code r) && (status_code r <? 600)) with false; [reflexivity|].
  symmetry. apply andb_false_iff. destruct Hs; [left; apply Z.leb_gt | right; apply Z.ltb_ge]; lia.
Qed.

(** X3. The fetches only read: make_request, get_user_details and
    get_user_repos put nothing and leave every stored object as it was,
    whatever the provider answers. *)
Theorem fetches_never_write (endpoint method : string)
  (params : option (list (string * string))) (username : string) (w : World) :
  let after m := snd (m w) in
  (put_keys (trace (after (github_api.make_request env self endpoint method params)))
     = put_keys (trace w)
   /\ objects (after (github_api.make_request env self endpoint method params)) = objects w)
  /\ (put_keys (trace (after (github_api.get_user_details env self username)))
        = put_keys (trace w)
      /\ objects (after (github_api.get_user_details env self username)) = objects w)
  /\ (put_keys (trace (after (github_api.get_user_repos env self username)))
        = put_keys (trace w)
      /\ objects (after (github_api.get_user_repos env self username)) = objects w).
Proof.
  cbn zeta. split; [|split].
  - destruct (make_request_effect env self endpoint method params w) as (_ & Hk & Ho). auto.
  - apply get_user_details_quiet.
  - apply get_user_repos_quiet.
Qed.

End ClientMore.

(** X4. The client puts its headers into no record of its own making. For
    every client and call, the records that make_request logs are one info
    record made of the method and the URL, then at most one record made of the
    answer of the transport: the text of the error when the request failed, a
    fixed text when it succeeded. So two clients of the same base URL that get
    the same answer to the same call log the same records and give the same
    result, whatever their headers hold. (The text of the transport's own error
    is logged as it is: a token can reach the log only inside that text.) *)
Theorem log_records_do_not_depend_on_headers (env : Env) (base_url : string)
  (headers1 headers2 : list (string * string)) (endpoint method : string)
  (params : option (list (string * string))) (w : World) :
  let client h := {| github_api.base_url := base_url; github_api.headers := h |} in
  let req h := {| req_method := method; req_url := base_url +:+ endpoint;
                  req_headers := h; req_params := params |} in
  let making := Log "github_api" logging.INFO
                  ("Making a " +:+ method +:+ " request to " +:+ base_url +:+ endpoint) in
  let outcome (answer : Result Response) :=
    match answer with
    | Raise e =>
        if isinstance_RequestException e
        then [Log "github_api" logging.ERROR ("Error during request: " +:+ exn_str e)]
        else []
    | Return r =>
        match requests.http_error_msg r with
        | Some msg => [Log "github_api" logging.ERROR ("Error during request: " +:+ msg)]
        | None => [Log "github_api" logging.INFO "Request successful"]
        end
    end in
  (forall h,
     log_records (trace (snd (github_api.make_request env (client h) endpoint method params w)))
     = log_records (trace w)
       ++ making :: outcome (requests_request env (external (trace w)) (req h)))
  /\
  (requests_request env (external (trace w)) (req headers1)
     = requests_request env (external (trace w)) (req headers2) ->
   fst (github_api.make_request env (client headers1) endpoint method params w)
     = fst (github_api.make_request env (client headers2) endpoint method params w)
   /\ log_records (trace (snd (github_api.make_request env (client headers1) endpoint method
                                 params w)))
      = log_records (trace (snd (github_api.make_request env (client headers2) endpoint method
                                   params w)))).
Proof.
  intros client req making outcome. split.
  - intros h. rewrite make_request_cases. cbn zeta.
    cbn [client github_api.base_url github_api.headers req_url]. fold (req h).
    unfold outcome, making.
    destruct (requests_request env (external (trace w)) (req h)) as [r|e];
      [destruct (requests.http_error_msg r) | destruct (isinstance_RequestException e)];
      cbn [fst snd extend trace];
      unfold log_records; rewrite !List.filter_app; reflexivity.
  - intros H. rewrite !make_request_cases. cbn zeta.
    cbn [client github_api.base_url github_api.headers]. fold (req headers1).
    fold (req headers2). rewrite H.
    destruct (requests_request env (external (trace w)) (req headers2)) as [r|e];
      [destruct (requests.http_error_msg r) | destruct (isinstance_RequestException e)];
      cbn [fst snd extend trace]; (split; [reflexivity|]);
      unfold log_records; rewrite !List.filter_app; reflexivity.
Qed.

(** ** Further properties of the uploader *)

Section UploadMore.
Variable env : Env.
Variable self : s3_uploader.S3Uploader.

(** X5. An exception of the store client that is neither a BotoCoreError
    nor a ClientError is not caught: upload_data_to_s3 raises it to its caller
    after the put, logs nothing and leaves the stored objects as they were. *)
Theorem upload_lets_other_exceptions_through (data : value) (key : string) (w : World)
  (e : exn) :
  let p := {| Body := Py.str (printer env) data; Bucket := s3_uploader.bucket_name self;
              Key := key |} in
  put_object env (external (trace w)) p = Raise e ->
  isinstance_BotoCoreError_ClientError e = false ->
  s3_uploader.upload_data_to_s3 env self data key w = (Raise e, extend w [Put p]).
Proof.
  intros p H He. rewrite upload_data_to_s3_cases. cbn zeta. fold p. rewrite H, He. reflexivity.
Qed.

(** X6. An upload touches one object at most. Every object at another key
    or in another bucket is as before; and when the store fails, whatever the
    error, the object at the key itself is as before too. *)
Theorem upload_changes_one_object_at_most (data : value) (key : string) (w : World) :
  let p := {| Body := Py.str (printer env) data; Bucket := s3_uploader.bucket_name self;
              Key := key |} in
  let w' := snd (s3_uploader.upload_data_to_s3 env self data key w) in
  (forall bucket' key', (bucket', key') <> (s3_uploader.bucket_name self, key) ->
     objects w' !! (bucket', key') = objects w !! (bucket', key'))
  /\ (forall e, put_object env (external (trace w)) p = Raise e -> objects w' = objects w).
Proof.
  cbn zeta. split.
  - intros bucket' key' Hne.
    destruct (upload_data_to_s3_effect env self data key w) as (_ & Ho & _). apply Ho, Hne.
  - intros e H. rewrite upload_data_to_s3_cases. cbn zeta. rewrite H.
    destruct (isinstance_BotoCoreError_ClientError e); reflexivity.
Qed.

End UploadMore.

(** ** Further properties of the orchestrator *)

Section OrchestratorMore.
Variable env : Env.
Variable api_client : github_api.GitHubAPI.
Variable uploader : s3_uploader.S3Uploader.
Variable username : string.



(** X9. Seen from outside, a run is always the first n of four calls, n from
    1 to 4: the request for the details, the request for the repos, the put of
    the details, the put of the repos. There is never a put before both
    requests are made, never a second try, and never a fifth call. *)
Theorem run_is_a_prefix_of_four_calls (w : World) :
  exists (d r : value) (n : nat),
    (1 <= n <= 4)%nat
    /\ external (trace (snd (main.upload_github_data_to_s3 env api_client uploader username w)))
       = external (trace w) ++
         firstn n
           [Http {| req_method := "GET";
                    req_url := github_api.base_url api_client +:+ "users/" +:+ username;
                    req_headers := github_api.headers api_client; req_params := None |};
            Http {| req_method := "GET";
                    req_url := github_api.base_url api_client
                               +:+ "users/" +:+ username +:+ "/repos";
                    req_headers := github_api.headers api_client; req_params := None |};
            Put {| Body := Py.str (printer env) d;
                   Bucket := s3_uploader.bucket_name uploader;
                   Key := username +:+ "_details.json" |};
            Put {| Body := Py.str (printer env) r;
                   Bucket := s3_uploader.bucket_name uploader;
                   Key := username +:+ "_repos.json" |}].
Proof.
  rewrite upload_github_data_to_s3_cases. cbn zeta.
  pose proof (make_request_effect env api_client ("users/" +:+ username) "GET" None
                (extend w [Log "github_api" logging.INFO
                             ("Fetching user details for " +:+ username)])) as (E1 & _).
  rewrite <- get_user_details_unfold in E1. cbn [extend trace] in E1.
  rewrite external_snoc_log in E1.
  destruct (github_api.get_user_details env api_client username w) as [[d|e] w1];
    cbn [snd] in E1.
  2:{ exists VNone, VNone, 1%nat. split; [lia|]. cbn [snd extend trace firstn].
      rewrite external_snoc_log. exact E1. }
  pose proof (make_request_effect env api_client ("users/" +:+ username +:+ "/repos") "GET" None
                (extend w1 [Log "github_api" logging.INFO
                              ("Fetching repositories for " +:+ username)])) as (E2 & _).
  rewrite <- get_user_repos_unfold in E2. cbn [extend trace] in E2.
  rewrite external_snoc_log in E2.
  destruct (github_api.get_user_repos env api_client username w1) as [[r|e] w2];
    cbn [snd] in E2.
  2:{ exists d, VNone, 2%nat. split; [lia|]. cbn [snd extend trace firstn].
      rewrite external_snoc_log, E2, E1, <- app_assoc. reflexivity. }
  destruct (upload_data_to_s3_effect env uploader d (username +:+ "_details.json") w2)
    as ((l3 & T3 & X3 & _) & _).
  destruct (s3_uploader.upload_data_to_s3 env uploader d _ w2) as [[c1|e] w3];
    cbn [snd] in T3.
  2:{ exists d, r, 3%nat. split; [lia|]. cbn [snd extend trace firstn].
      rewrite external_snoc_log, T3, external_app. cbn [external List.filter is_external].
      fold (external l3). rewrite X3, E2, E1, <- !app_assoc. reflexivity. }
  destruct (upload_data_to_s3_effect env uploader r (username +:+ "_repos.json") w3)
    as ((l4 & T4 & X4 & _) & _).
  assert (E4 : external (trace (snd (s3_uploader.upload_data_to_s3 env uploader r
                                       (username +:+ "_repos.json") w3))) =
               external (trace w) ++
               [Http {| req_method := "GET";
                        req_url := github_api.base_url api_client +:+ "users/" +:+ username;
                        req_headers := github_api.headers api_client; req_params := None |};
                Http {| req_method := "GET";
                        req_url := github_api.base_url api_client
                                   +:+ "users/" +:+ username +:+ "/repos";
                        req_headers := github_api.headers api_client; req_params := None |};
                Put {| Body := Py.str (printer env) d;
                       Bucket := s3_uploader.bucket_name uploader;
                       Key := username +:+ "_details.json" |};
                Put {| Body := Py.str (printer env) r;
                       Bucket := s3_uploader.bucket_name uploader;
                       Key := username +:+ "_repos.json" |}]).
  { rewrite T4, T3, !external_app. cbn [external List.filter is_external].
    fold (external l3). fold (external l4). rewrite X3, X4, E2, E1, <- !app_assoc.
    reflexivity. }
  exists d, r, 4%nat. split; [lia|]. cbn [firstn].
  destruct (s3_uploader.upload_data_to_s3 env uploader r _ w3) as [[c2|e] w4];
    cbn [snd extend trace] in *; rewrite external_snoc_log; exact E4.
Qed.

(** The orchestrator of [Module main], its logger bound: when the two
    fetches return and the store refuses both puts with a BotoCoreError or a
    ClientError, every stored object is as it was and the run ends on the
    success line. *)
Lemma refused_puts_in_main (w : World)
  (d : value) (w1 : World) (r : value) (w2 : World) (e1 e2 : exn) :
  let bucket := s3_uploader.bucket_name uploader in
  let p1 := {| Body := Py.str (printer env) d; Bucket := bucket;
               Key := username +:+ "_details.json" |} in
  let p2 := {| Body := Py.str (printer env) r; Bucket := bucket;
               Key := username +:+ "_repos.json" |} in
  github_api.get_user_details env api_client username w = (Return d, w1) ->
  github_api.get_user_repos env api_client username w1 = (Return r, w2) ->
  put_object env (external (trace w2)) p1 = Raise e1 ->
  isinstance_BotoCoreError_ClientError e1 = true ->
  put_object env (external (trace w2) ++ [Put p1]) p2 = Raise e2 ->
  isinstance_BotoCoreError_ClientError e2 = true ->
  main.upload_github_data_to_s3 env api_client uploader username w =
    (Return VNone,
     {| trace := trace w2 ++
                 [Put p1;
                  Log "s3_uploader" logging.ERROR ("Error uploading data to S3: " +:+ exn_str e1);
                  Put p2;
                  Log "s3_uploader" logging.ERROR ("Error uploading data to S3: " +:+ exn_str e2);
                  Log "__main__" logging.INFO
                    ("User Details and Repositories for '" +:+ username +:+ "' uploaded to S3")];
        objects := objects w |}).
Proof.
  intros bucket p1 p2 H1 H2 A1 B1 A2 B2.
  rewrite upload_github_data_to_s3_cases. cbn zeta. rewrite H1, H2.
  pose proof (get_user_details_quiet env api_client username w) as (_ & O1).
  pose proof (get_user_repos_quiet env api_client username w1) as (_ & O2).
  rewrite H1 in O1. rewrite H2 in O2. cbn [snd] in O1, O2.
  rewrite upload_data_to_s3_cases. cbn zeta. fold bucket p1. rewrite A1, B1. lazy beta iota.
  rewrite upload_data_to_s3_cases. cbn zeta.
  cbn [extend trace]. rewrite external_app. cbn [external List.filter is_external].
  fold (external (trace w2)). fold bucket p2. rewrite A2, B2.
  unfold extend. cbn [trace objects]. rewrite O2, O1, <- !app_assoc. reflexivity.
Qed.

End OrchestratorMore.

(** ** The entry point *)

Section EntryPointFacts.
Variable env : Env.
Variable host : Host.

(** [load_configuration] in one table. *)
Lemma load_configuration_cases (file_name : string) (w : World) :
  main.load_configuration env host file_name w =
  match open_text host file_name with
  | Raise e => (Raise e, w)
  | Return file =>
      let loading := Log "__main__" logging.DEBUG ("Loading configuration from " +:+ file_name) in
      match (if String.eqb file "" then Return VNone else yaml_parse host file) with
      | Raise e => (Raise e, extend w [loading])
      | Return v =>
          (Return VNone,
           extend w [loading;
                     Log "__main__" logging.DEBUG ("Configuration: " +:+ Py.str (printer env) v);
                     Log "__main__" logging.DEBUG "Configuration loaded successfully"])
      end
  end.
Proof.
  unfold main.load_configuration.
  destruct (open_text host file_name) as [file|e]; [|reflexivity].
  unfold yaml.safe_load, bind, extend. cbn.
  destruct (String.eqb file ""); cbn.
  - rewrite <- !app_assoc. reflexivity.
  - destruct (yaml_parse host file) as [v|e]; cbn; [|reflexivity].
    rewrite <- !app_assoc. reflexivity.
Qed.

(** X11. load_configuration never returns the configuration. For every file
    that opens and parses, to v say, it logs three debug records, the second
    with the text of v, and returns None: the value it returns is read by a
    second yaml.safe_load from the stream that the first one has read to its
    end. *)
Theorem load_configuration_returns_None (file_name : string) (w : World)
  (content : string) (v : value) :
  open_text host file_name = Return content ->
  (content = "" /\ v = VNone) \/ (content <> "" /\ yaml_parse host content = Return v) ->
  main.load_configuration env host file_name w =
    (Return VNone,
     extend w [Log "__main__" logging.DEBUG ("Loading configuration from " +:+ file_name);
               Log "__main__" logging.DEBUG ("Configuration: " +:+ Py.str (printer env) v);
               Log "__main__" logging.DEBUG "Configuration loaded successfully"]).
Proof.
  intros Ho H. rewrite load_configuration_cases, Ho. cbn zeta.
  destruct H as [(-> & ->) | (Hne & Hp)]; [reflexivity|].
  apply String.eqb_neq in Hne. rewrite Hne, Hp. reflexivity.
Qed.

(** X12. load_configuration catches nothing. When the file does not open,
    the exception of open reaches the caller and nothing is logged; when the
    text does not parse, the exception of the parser reaches the caller after
    the first debug record. *)
Theorem load_configuration_lets_errors_through (file_name : string) (w : World) (e : exn) :
  (open_text host file_name = Raise e ->
   main.load_configuration env host file_name w = (Raise e, w))
  /\
  (forall content,
     open_text host file_name = Return content ->
     content <> "" ->
     yaml_parse host content = Raise e ->
     main.load_configuration env host file_name w =
       (Raise e,
        extend w [Log "__main__" logging.DEBUG
                    ("Loading configuration from " +:+ file_name)])).
Proof.
  split.
  - intros Ho. rewrite load_configuration_cases, Ho. reflexivity.
  - intros content Ho Hne Hp. rewrite load_configuration_cases, Ho. cbn zeta.
    apply String.eqb_neq in Hne. rewrite Hne, Hp. reflexivity.
Qed.


(** [main.program], the three loggers made: for every config.yml that
    opens and parses, it logs six records and raises the TypeError of
    subscripting None. *)
Lemma main_program_stops_at_the_subscript_of_None (w : World) (content : string) (v : value) :
  open_text host "config.yml" = Return content ->
  (content = "" /\ v = VNone) \/ (content <> "" /\ yaml_parse host content = Return v) ->
  main.program env host w =
    (Raise (builtins.TypeError "'NoneType' object is not subscriptable"),
     extend w [Log "s3_uploader" logging.INFO "S3 Uploader initialized";
               Log "github_api" logging.INFO "GitHub API initialized";
               Log "__main__" logging.INFO "Program started.";
               Log "__main__" logging.DEBUG "Loading configuration from config.yml";
               Log "__main__" logging.DEBUG ("Configuration: " +:+ Py.str (printer env) v);
               Log "__main__" logging.DEBUG "Configuration loaded successfully"]).
Proof.
  intros Ho H.
  unfold main.program, main.__main__, bind.
  cbn [s3_uploader.on_import github_api.on_import]. cbn -[main.load_configuration].
  rewrite load_configuration_cases, Ho. cbn zeta.
  destruct H as [(-> & ->) | (Hne & Hp)].
  - cbn. unfold extend. cbn. rewrite <- !app_assoc. reflexivity.
  - apply String.eqb_neq in Hne. rewrite Hne, Hp. cbn. unfold extend. cbn.
    rewrite <- !app_assoc. reflexivity.
Qed.

End EntryPointFacts.

(** ** The loggers, handler by handler *)

Section HandlerFacts.
Import handlers.

Lemma substring_length_le (n : nat) (s : string) :
  (String.length (String.substring 0 n s) <= n)%nat.
Proof.
  revert s. induction n as [|n IH]; intros [|c s]; cbn; try lia.
  specialize (IH s). lia.
Qed.

Lemma rfind_dot_lt (name : string) (stop i : nat) :
  rfind_dot name stop = Some i -> (i < stop)%nat.
Proof.
  unfold rfind_dot. intros H. apply List.find_some in H as [_ H].
  apply Nat.ltb_lt, H.
Qed.

(** A name is not above itself. *)
Lemma parent_from_insert_self (fuel : nat) (known : gmap string Logger) (name : string)
  (l : Logger) (i : option nat) :
  (forall j, i = Some j -> (j < String.length name)%nat) ->
  parent_from fuel (<[name := l]> known) name i = parent_from fuel known name i.
Proof.
  revert i. induction fuel as [|fuel IH]; intros i Hi; [reflexivity|].
  destruct i as [[|k]|]; cbn [parent_from]; try reflexivity.
  rewrite lookup_insert_ne.
  - destruct (known !! String.substring 0 (S k) name); [reflexivity|].
    apply IH. intros j Hj. apply rfind_dot_lt in Hj. specialize (Hi _ eq_refl). lia.
  - intros E. specialize (Hi _ eq_refl).
    pose proof (substring_length_le (S k) name) as Hl. rewrite <- E in Hl. lia.
Qed.

Lemma parent_insert_self (known : gmap string Logger) (name : string) (l : Logger) :
  parent (<[name := l]> known) name = parent known name.
Proof.
  unfold parent. apply parent_from_insert_self. intros j Hj. apply rfind_dot_lt in Hj. exact Hj.
Qed.

Lemma logger_at_update_same (name : string) (f : Logger -> Logger) (s : Logging) :
  logger_at (update name f s) name = f (logger_at s name).
Proof.
  unfold update, logger_at. destruct (is_root name) eqn:R; cbn; rewrite ?R; [reflexivity|].
  rewrite ?lookup_insert_eq. reflexivity.
Qed.

Lemma written_update (name : string) (f : Logger -> Logger) (s : Logging) :
  written (update name f s) = written s.
Proof. unfold update. destruct (is_root name); reflexivity. Qed.

(** A logger that is not the root and has nothing but the root above it:
    what a record passes through after updates of the logger itself. *)
Lemma lineage_update_plain (name : string) (f : Logger -> Logger) (s : Logging) :
  is_root name = false ->
  parent (loggers s) name = None ->
  lineage (update name f s) name = [f (logger_at s name); root s]
  /\ parent (loggers (update name f s)) name = None.
Proof.
  intros R P. unfold lineage. rewrite R, logger_at_update_same.
  assert (P' : parent (loggers (update name f s)) name = None).
  { unfold update. rewrite R. cbn. rewrite parent_insert_self. exact P. }
  split; [|exact P'].
  destruct (String.length name) as [|n]; cbn [above].
  - unfold update. rewrite R. reflexivity.
  - rewrite P'. unfold update. rewrite R. reflexivity.
Qed.

(** The state after a construction that succeeds. *)
Lemma init_state (disk : Disk) (now name : string) (log_file : option string) (lvl : Z)
  (s : Logging) (self : log_this) (s' : Logging) :
  __init__ disk now name log_file lvl s = (Return self, s') ->
  let path := match log_file with
              | None => "logs/" +:+ name +:+ "_" +:+ now +:+ ".log"
              | Some f => f
              end in
  self = {| logger := name |}
  /\ s' = update name
            (fun l => {| level := lvl;
                         handlers := handlers l ++ [{| handler_level := lvl; sink := File path |};
                                                    {| handler_level := lvl; sink := Console |}] |})
            s.
Proof.
  intros H. cbn zeta. unfold __init__ in H.
  destruct (match log_file with None => makedirs disk "./logs" | Some _ => None end);
    [discriminate|].
  destruct (open_append disk _); [discriminate|].
  injection H as <- <-. split; [reflexivity|].
  unfold addHandler, setLevel, getLogger, update, logger_at.
  destruct (is_root name) eqn:R; cbn; rewrite ?R; cbn.
  - rewrite <- app_assoc. reflexivity.
  - rewrite !lookup_insert_eq. cbn. rewrite !insert_insert_eq, <- app_assoc. reflexivity.
Qed.

Lemma root_update_plain (name : string) (f : Logger -> Logger) (s : Logging) :
  is_root name = false -> root (update name f s) = root s.
Proof. intros R. unfold update. rewrite R. reflexivity. Qed.

Lemma lineage_plain (name : string) (s : Logging) :
  is_root name = false ->
  parent (loggers s) name = None ->
  lineage s name = [logger_at s name; root s].
Proof.
  intros R P. unfold lineage. rewrite R.
  destruct (String.length name) as [|n]; cbn [above]; [reflexivity|].
  rewrite P. reflexivity.
Qed.

(** What a record writes through a logger that has only the root above it,
    the root having no handler. *)
Lemma log_plain (name : string) (levelno : Z) (asctime message : string) (s : Logging) :
  is_root name = false ->
  parent (loggers s) name = None ->
  handlers (root s) = [] ->
  0 < levelno ->
  let l := logger_at s name in
  let line := format asctime name levelno message in
  written (log {| logger := name |} levelno asctime message s) =
  written s ++
    (if (if level l =? 0 then level (root s) else level l) <=? levelno
     then match handlers l with
          | [] => if logging.WARNING <=? levelno then [(Console, message)] else []
          | _ => map (fun h => (sink h, line))
                     (List.filter (fun h => handler_level h <=? levelno) (handlers l))
          end
     else []).
Proof.
  intros R P H0 Hl l line.
  unfold log, isEnabledFor, getEffectiveLevel, callHandlers. cbn [logger].
  rewrite (lineage_plain name s R P). fold l. cbn [List.find flat_map].
  rewrite H0, !app_nil_r. unfold record_name. rewrite R. fold line.
  replace (0 <? levelno) with true by (symmetry; apply Z.ltb_lt; exact Hl).
  cbn [andb].
  assert (E : (match (if negb (level l =? 0) then Some l
                      else if negb (level (root s) =? 0) then Some (root s) else None) with
               | Some l0 => level l0
               | None => logging.NOTSET
               end) = (if level l =? 0 then level (root s) else level l)).
  { destruct (level l =? 0); cbn [negb]; [|reflexivity].
    destruct (level (root s) =? 0) eqn:Z0; cbn [negb]; [|reflexivity].
    apply Z.eqb_eq in Z0. rewrite Z0. reflexivity. }
  rewrite E.
  destruct ((if level l =? 0 then level (root s) else level l) <=? levelno);
    [|symmetry; apply app_nil_r].
  cbn [written]. destruct (handlers l); reflexivity.
Qed.

End HandlerFacts.

Section HandlerClaims.
Import handlers.
Variable disk : Disk.

(** X15. The first log_this of a name, with a level that is set: a record
    at that level or above is written once to the file and once to the
    console, in the format of logger.py; a record below the level is written
    nowhere. This is the one log record of [logger.log] above, which keeps or
    drops the record by the same test. *)
Theorem first_log_this_writes_file_and_console (now name : string) (log_file : option string)
  (lvl : Z) (s : Logging) (self : log_this) (s' : Logging)
  (levelno : Z) (asctime message : string) (w : World) :
  is_root name = false ->
  parent (loggers s) name = None ->
  handlers (root s) = [] ->
  handlers (logger_at s name) = [] ->
  lvl <> 0 ->
  0 < levelno ->
  __init__ disk now name log_file lvl s = (Return self, s') ->
  let path := match log_file with
              | None => "logs/" +:+ name +:+ "_" +:+ now +:+ ".log"
              | Some f => f
              end in
  let line := asctime +:+ " - " +:+ name +:+ " - " +:+ getLevelName levelno
              +:+ " - " +:+ message in
  written (log self levelno asctime message s') =
    written s' ++ (if lvl <=? levelno then [(File path, line); (Console, line)] else [])
  /\ trace (snd (logger.log {| logger.name := name; logger.level := lvl |} levelno message w)) =
       trace w ++ (if lvl <=? levelno then [Log name levelno message] else []).
Proof.
  intros R P H0 Hh Hl Hpos Hi path line.
  apply init_state in Hi as [-> ->]. fold path. split.
  - destruct (lineage_update_plain name
                (fun l => {| level := lvl;
                             handlers := handlers l ++
                                           [{| handler_level := lvl; sink := File path |};
                                            {| handler_level := lvl; sink := Console |}] |})
                s R P) as (_ & P').
    rewrite log_plain; [|exact R|exact P'|rewrite root_update_plain; assumption|exact Hpos].
    cbn zeta. rewrite logger_at_update_same, Hh. cbn [level handlers app List.filter sink map
                                                       handler_level].
    apply Z.eqb_neq in Hl. rewrite Hl.
    destruct (lvl <=? levelno); reflexivity.
  - unfold logger.log. cbn [logger.level logger.name].
    destruct (lvl <=? levelno); cbn; [reflexivity|symmetry; apply app_nil_r].
Qed.

(** X16. Handlers pile up on the shared logger. After a second log_this of
    the same name, a record that the level of the second admits is written by
    the handlers of the second and also by those of the first, when their
    level admits it: with equal levels every line comes twice on the console.
    A record below the level of the second is written nowhere, even when the
    level of the first admits it: the last construction sets the level for
    every log_this of the name. *)
Theorem second_log_this_of_a_name (now1 now2 name : string) (file1 file2 : option string)
  (lvl1 lvl2 : Z) (s : Logging) (self1 self2 : log_this) (s1 s2 : Logging)
  (levelno : Z) (asctime message : string) :
  is_root name = false ->
  parent (loggers s) name = None ->
  handlers (root s) = [] ->
  handlers (logger_at s name) = [] ->
  lvl2 <> 0 ->
  0 < levelno ->
  __init__ disk now1 name file1 lvl1 s = (Return self1, s1) ->
  __init__ disk now2 name file2 lvl2 s1 = (Return self2, s2) ->
  let path now log_file :=
    match log_file with
    | None => "logs/" +:+ name +:+ "_" +:+ now +:+ ".log"
    | Some f => f
    end in
  let line := asctime +:+ " - " +:+ name +:+ " - " +:+ getLevelName levelno
              +:+ " - " +:+ message in
  written (log self1 levelno asctime message s2) =
    written s2 ++
      (if lvl2 <=? levelno
       then (if lvl1 <=? levelno
             then [(File (path now1 file1), line); (Console, line)] else [])
            ++ [(File (path now2 file2), line); (Console, line)]
       else []).
Proof.
  intros R P H0 Hh Hl Hpos Hi1 Hi2 path line.
  apply init_state in Hi1 as [-> ->]. apply init_state in Hi2 as [_ ->].
  fold (path now1 file1). fold (path now2 file2).
  set (f1 := fun l => {| level := lvl1;
                         handlers := handlers l ++
                                       [{| handler_level := lvl1; sink := File (path now1 file1) |};
                                        {| handler_level := lvl1; sink := Console |}] |}).
  set (f2 := fun l => {| level := lvl2;
                         handlers := handlers l ++
                                       [{| handler_level := lvl2; sink := File (path now2 file2) |};
                                        {| handler_level := lvl2; sink := Console |}] |}).
  destruct (lineage_update_plain name f1 s R P) as (_ & P1).
  destruct (lineage_update_plain name f2 (update name f1 s) R P1) as (_ & P2).
  rewrite log_plain;
    [|exact R|exact P2|rewrite !root_update_plain; assumption|exact Hpos].
  cbn zeta. rewrite !logger_at_update_same. subst f1 f2. cbv beta. cbn [level handlers].
  rewrite Hh.
  apply Z.eqb_neq in Hl. rewrite Hl.
  cbn [app List.filter handler_level].
  destruct (lvl2 <=? levelno); [|reflexivity].
  destruct (lvl1 <=? levelno); reflexivity.
Qed.

(** X17. A log_this made with the level NOTSET (0) does not log everything:
    the logger takes the level in force at the root, WARNING in a process that
    has not configured logging, so its debug and info records are written
    nowhere, though both handlers would admit them. *)
Theorem log_this_at_NOTSET_takes_the_level_of_the_root (now name : string)
  (log_file : option string) (s : Logging) (self : log_this) (s' : Logging)
  (levelno : Z) (asctime message : string) :
  is_root name = false ->
  parent (loggers s) name = None ->
  handlers (root s) = [] ->
  handlers (logger_at s name) = [] ->
  0 < levelno ->
  __init__ disk now name log_file logging.NOTSET s = (Return self, s') ->
  let path := match log_file with
              | None => "logs/" +:+ name +:+ "_" +:+ now +:+ ".log"
              | Some f => f
              end in
  let line := asctime +:+ " - " +:+ name +:+ " - " +:+ getLevelName levelno
              +:+ " - " +:+ message in
  written (log self levelno asctime message s') =
    written s' ++
      (if level (root s) <=? levelno then [(File path, line); (Console, line)] else []).
Proof.
  intros R P H0 Hh Hpos Hi path line.
  apply init_state in Hi as [-> ->]. fold path.
  destruct (lineage_update_plain name
              (fun l => {| level := logging.NOTSET;
                           handlers := handlers l ++
                                         [{| handler_level := logging.NOTSET; sink := File path |};
                                          {| handler_level := logging.NOTSET; sink := Console |}] |})
              s R P) as (_ & P').
  rewrite log_plain; [|exact R|exact P'|rewrite root_update_plain; assumption|exact Hpos].
  cbn zeta. rewrite logger_at_update_same, Hh, root_update_plain by exact R.
  cbn [level handlers app List.filter handler_level]. unfold logging.NOTSET.
  replace (0 <=? levelno) with true by (symmetry; apply Z.leb_le; lia).
  cbn. destruct (level (root s) <=? levelno); reflexivity.
Qed.

(** X18. A construction that fails is not without effect. When the logs
    directory cannot be made or the log file cannot be opened, log_this raises
    the error of the disk, adds no handler and writes nothing, but the level
    of the logger of that name is already the new one, for every log_this that
    shares it. *)
Theorem failed_log_this_still_sets_the_level (now name : string) (log_file : option string)
  (lvl : Z) (s : Logging) (e : exn) :
  let path := match log_file with
              | None => "logs/" +:+ name +:+ "_" +:+ now +:+ ".log"
              | Some f => f
              end in
  (log_file = None /\ makedirs disk "./logs" = Some e)
  \/ ((log_file = None -> makedirs disk "./logs" = None) /\ open_append disk path = Some e) ->
  exists s',
    __init__ disk now name log_file lvl s = (Raise e, s')
    /\ level (logger_at s' name) = lvl
    /\ handlers (logger_at s' name) = handlers (logger_at s name)
    /\ written s' = written s.
Proof.
  intros path H. unfold __init__. fold path.
  assert (E : forall s0, level (logger_at (setLevel name lvl (getLogger name s0)) name) = lvl
                         /\ handlers (logger_at (setLevel name lvl (getLogger name s0)) name)
                            = handlers (logger_at s0 name)
                         /\ written (setLevel name lvl (getLogger name s0)) = written s0).
  { intros s0. unfold setLevel, getLogger. rewrite !logger_at_update_same, !written_update.
    auto. }
  destruct H as [(-> & Hm) | (Hm & Ho)].
  - rewrite Hm. eexists. split; [reflexivity|apply E].
  - destruct log_file as [f|].
    + rewrite Ho. eexists. split; [reflexivity|apply E].
    + rewrite (Hm eq_refl), Ho. eexists. split; [reflexivity|apply E].
Qed.

End HandlerClaims.

(** ** The further properties on sample runs *)

Lemma X1_value_error_reaches_the_caller :
  github_api.make_request (env broken accepting) api "users/octocat" "GET" None start =
    (Raise value_error,
     extend start
       [Log "github_api" logging.INFO
          "Making a GET request to https://api.example.com/users/octocat";
        Http details_request]).
Proof.
  apply (make_request_lets_other_exceptions_through (env broken accepting) api "users/octocat"
           "GET" None start value_error); reflexivity.
Defined.

Lemma X2_moved_answer_is_decoded :
  github_api.make_request (env moved accepting) api "users/octocat" "GET" None start =
    (Return (VList []),
     extend start
       [Log "github_api" logging.INFO
          "Making a GET request to https://api.example.com/users/octocat";
        Http details_request;
        Log "github_api" logging.INFO "Request successful"]).
Proof.
  apply (make_request_decodes_every_other_status (env moved accepting) api "users/octocat"
           "GET" None start
           {| status_code := 301; reason := "Moved Permanently";
              url := "https://api.example.com/users/octocat"; text := "[]" |}).
  - reflexivity.
  - left. cbn. lia.
Defined.

Lemma X4_two_tokens_one_log :
  let one := {| github_api.base_url := "https://api.example.com/";
                github_api.headers := [("Authorization", "token abc")] |} in
  let other := {| github_api.base_url := "https://api.example.com/";
                  github_api.headers := [("Authorization", "token xyz")] |} in
  fst (github_api.make_request (env github accepting) one "users/octocat" "GET" None start)
    = fst (github_api.make_request (env github accepting) other "users/octocat" "GET" None start)
  /\ log_records (trace (snd (github_api.make_request (env github accepting) one
                                "users/octocat" "GET" None start)))
     = log_records (trace (snd (github_api.make_request (env github accepting) other
                                  "users/octocat" "GET" None start))).
Proof.
  apply (proj2 (log_records_do_not_depend_on_headers (env github accepting)
                  "https://api.example.com/"
                  [("Authorization", "token abc")] [("Authorization", "token xyz")]
                  "users/octocat" "GET" None start)).
  reflexivity.
Defined.

Lemma X5_type_error_reaches_the_caller :
  s3_uploader.upload_data_to_s3 (env github crashing) uploader octocat "octocat_details.json"
    start =
    (Raise type_error,
     extend start
       [Put {| Body := "{'login': 'octocat', 'id': 1}"; Bucket := "vendor-data";
               Key := "octocat_details.json" |}]).
Proof.
  apply (upload_lets_other_exceptions_through (env github crashing) uploader octocat
           "octocat_details.json" start type_error); reflexivity.
Defined.

Lemma X6_other_key_and_denied_put :
  objects (snd (s3_uploader.upload_data_to_s3 (env github accepting) uploader octocat
                  "octocat_details.json" start))
    !! ("vendor-data", "octocat_repos.json")
    = objects start !! ("vendor-data", "octocat_repos.json")
  /\ objects (snd (s3_uploader.upload_data_to_s3 (env github denying) uploader octocat
                     "octocat_details.json" start))
     = objects start.
Proof.
  split.
  - apply (proj1 (upload_changes_one_object_at_most (env github accepting) uploader octocat
                    "octocat_details.json" start)).
    intros [= ].
  - apply (proj2 (upload_changes_one_object_at_most (env github denying) uploader octocat
                    "octocat_details.json" start) access_denied).
    reflexivity.
Defined.




Lemma X11_the_configuration_is_lost :
  main.load_configuration (env github accepting) configured "config.yml" start =
    (Return VNone,
     extend start
       [Log "__main__" logging.DEBUG "Loading configuration from config.yml";
        Log "__main__" logging.DEBUG
          "Configuration: {'github_base_url': 'https://api.example.com/', 'github_token': 'abc', 's3_bucket_name': 'vendor-data'}";
        Log "__main__" logging.DEBUG "Configuration loaded successfully"]).
Proof.
  apply (load_configuration_returns_None (env github accepting) configured "config.yml" start
           config_text config).
  - reflexivity.
  - right. split; [discriminate|reflexivity].
Defined.

Lemma X12_missing_file_and_garbled_file :
  main.load_configuration (env github accepting) bare "config.yml" start
    = (Raise no_such_file, start)
  /\ main.load_configuration (env github accepting) garbled "config.yml" start
     = (Raise yaml_error,
        extend start [Log "__main__" logging.DEBUG "Loading configuration from config.yml"]).
Proof.
  split.
  - apply (proj1 (load_configuration_lets_errors_through (env github accepting) bare
                    "config.yml" start no_such_file)).
    reflexivity.
  - apply (proj2 (load_configuration_lets_errors_through (env github accepting) garbled
                    "config.yml" start yaml_error) "a: b: c").
    + reflexivity.
    + discriminate.
    + reflexivity.
Defined.


(** The logger of github_api.py, made once at DEBUG in a new process: an
    info record goes to its file and to the console. *)
Lemma X15_github_api_logger :
  exists self s',
    handlers.__init__ disk "20240101120000" "github_api" None logging.DEBUG handlers.initial
      = (Return self, s')
    /\ handlers.written (handlers.info self "2024-01-01 12:00:00,000" "GitHub API initialized" s')
       = [(handlers.File "logs/github_api_20240101120000.log",
           "2024-01-01 12:00:00,000 - github_api - INFO - GitHub API initialized");
          (handlers.Console,
           "2024-01-01 12:00:00,000 - github_api - INFO - GitHub API initialized")].
Proof.
  do 2 eexists. split; [reflexivity|].
  refine (proj1 (first_log_this_writes_file_and_console disk "20240101120000" "github_api" None
                   logging.DEBUG handlers.initial _ _ logging.INFO "2024-01-01 12:00:00,000"
                   "GitHub API initialized" start _ _ _ _ _ _ eq_refl));
    try reflexivity; discriminate.
Defined.

(** The same logger made twice: every line comes twice on the console. *)
Lemma X16_github_api_logger_made_twice :
  exists self1 s1 self2 s2,
    handlers.__init__ disk "20240101120000" "github_api" None logging.DEBUG handlers.initial
      = (Return self1, s1)
    /\ handlers.__init__ disk "20240101120005" "github_api" None logging.DEBUG s1
       = (Return self2, s2)
    /\ handlers.written (handlers.info self1 "t" "hello" s2)
       = [(handlers.File "logs/github_api_20240101120000.log", "t - github_api - INFO - hello");
          (handlers.Console, "t - github_api - INFO - hello");
          (handlers.File "logs/github_api_20240101120005.log", "t - github_api - INFO - hello");
          (handlers.Console, "t - github_api - INFO - hello")].
Proof.
  do 4 eexists. split; [reflexivity|]. split; [reflexivity|].
  refine (second_log_this_of_a_name disk "20240101120000" "20240101120005" "github_api" None None
            logging.DEBUG logging.DEBUG handlers.initial _ _ _ _ logging.INFO "t" "hello"
            _ _ _ _ _ _ eq_refl eq_refl);
    try reflexivity; discriminate.
Defined.

(** Made with NOTSET in a new process, the logger drops an info record. *)
Lemma X17_info_is_dropped_at_NOTSET :
  exists self s',
    handlers.__init__ disk "20240101120000" "github_api" None logging.NOTSET handlers.initial
      = (Return self, s')
    /\ handlers.written (handlers.info self "t" "hello" s') = [].
Proof.
  do 2 eexists. split; [reflexivity|].
  refine (log_this_at_NOTSET_takes_the_level_of_the_root disk "20240101120000" "github_api"
            None handlers.initial _ _ logging.INFO "t" "hello" _ _ _ _ _ eq_refl);
    reflexivity.
Defined.

(** On a disk that takes no directory, log_this raises and the level of the
    logger is the new one. *)
Lemma X18_read_only_disk :
  exists s',
    handlers.__init__ read_only "20240101120000" "github_api" None logging.ERROR
      handlers.initial = (Raise permission_denied, s')
    /\ handlers.level (handlers.logger_at s' "github_api") = logging.ERROR
    /\ handlers.handlers (handlers.logger_at s' "github_api") = [].
Proof.
  destruct (failed_log_this_still_sets_the_level read_only "20240101120000" "github_api" None
              logging.ERROR handlers.initial permission_denied)
    as (s' & Hi & Hl & Hh & _).
  { left. split; reflexivity. }
  exists s'. split; [exact Hi|]. split; [exact Hl|exact Hh].
Defined.

(** ** main.py as a module: the orchestrator *)

Section ModuleState.
Variable env : Env.
Variable api_client : github_api.GitHubAPI.
Variable uploader : s3_uploader.S3Uploader.
Variable username : string.

(** A log call returns, and no request, put or object comes of it. *)
Lemma log_is_quiet (l : logger.log_this) (levelno : Z) (message : string) (w : World) :
  let w' := snd (logger.log l levelno message w) in
  logger.log l levelno message w = (Return tt, w')
  /\ external (trace w') = external (trace w)
  /\ put_keys (trace w') = put_keys (trace w)
  /\ objects w' = objects w.
Proof.
  unfold logger.log. destruct (logger.level l <=? levelno); cbn.
  - rewrite external_app, put_keys_app. cbn. rewrite !app_nil_r. auto.
  - auto.
Qed.

(** With the logger of line 67 bound, the orchestrator is that of
    [Module main]. *)
Lemma orchestrator_with_logger_bound (w : World) :
  main_py.upload_github_data_to_s3 env (Some main.logger) api_client uploader username w =
  main.upload_github_data_to_s3 env api_client uploader username w.
Proof. reflexivity. Qed.

(** The orchestrator in one table, the global [logger] bound or not. *)
Lemma upload_github_data_to_s3_cases_in (bound : option logger.log_this) (w : World) :
  let finish (record : logger.log_this -> M unit) (w_k : World) :=
    match bound with
    | Some l => (Return VNone, snd (record l w_k))
    | None => (Raise (main_py.NameError "logger"), w_k)
    end in
  let failure (e : exn) (l : logger.log_this) :=
    logger.error l ("An error occurred during data fetching or uploading: " +:+ exn_str e) in
  let success (l : logger.log_this) :=
    logger.info l ("User Details and Repositories for '" +:+ username +:+ "' uploaded to S3") in
  main_py.upload_github_data_to_s3 env bound api_client uploader username w =
  match github_api.get_user_details env api_client username w with
  | (Raise e, w1) => finish (failure e) w1
  | (Return d, w1) =>
      match github_api.get_user_repos env api_client username w1 with
      | (Raise e, w2) => finish (failure e) w2
      | (Return r, w2) =>
          match s3_uploader.upload_data_to_s3 env uploader d (username +:+ "_details.json") w2 with
          | (Raise e, w3) => finish (failure e) w3
          | (Return _, w3) =>
              match s3_uploader.upload_data_to_s3 env uploader r
                      (username +:+ "_repos.json") w3 with
              | (Raise e, w4) => finish (failure e) w4
              | (Return _, w4) => finish success w4
              end
          end
      end
  end.
Proof.
  cbn zeta.
  unfold main_py.upload_github_data_to_s3, main_py.upload_github_data_to_s3_body, try_except,
    bind, main_py.global_logger, logger.error, logger.info, logger.log.
  destruct (github_api.get_user_details env api_client username w) as [[d|e] w1];
    [|destruct e as [[]]; destruct bound as [l|]; cbn;
      try destruct (logger.level l <=? logging.ERROR); reflexivity].
  destruct (github_api.get_user_repos env api_client username w1) as [[r|e] w2];
    [|destruct e as [[]]; destruct bound as [l|]; cbn;
      try destruct (logger.level l <=? logging.ERROR); reflexivity].
  destruct (s3_uploader.upload_data_to_s3 env uploader d _ w2) as [[c1|e] w3];
    [|destruct e as [[]]; destruct bound as [l|]; cbn;
      try destruct (logger.level l <=? logging.ERROR); reflexivity].
  destruct (s3_uploader.upload_data_to_s3 env uploader r _ w3) as [[c2|e] w4];
    [|destruct e as [[]]; destruct bound as [l|]; cbn;
      try destruct (logger.level l <=? logging.ERROR); reflexivity].
  destruct bound as [l|]; cbn; try destruct (logger.level l <=? logging.INFO); reflexivity.
Qed.

(** X7. Both fetches come before the first upload: when either fetch raises,
    the orchestrator makes no put at all and leaves every stored object as it
    was, whether the global logger is bound or not; details that were fetched
    well are not stored when the fetch of the repos raises. *)
Theorem no_upload_when_a_fetch_raises (bound : option logger.log_this) (w : World) (e : exn)
  (w_e : World) :
  github_api.get_user_details env api_client username w = (Raise e, w_e)
  \/ (exists d w1,
        github_api.get_user_details env api_client username w = (Return d, w1)
        /\ github_api.get_user_repos env api_client username w1 = (Raise e, w_e)) ->
  let w' := snd (main_py.upload_github_data_to_s3 env bound api_client uploader username w) in
  put_keys (trace w') = put_keys (trace w)
  /\ objects w' = objects w.
Proof.
  intros H w'. unfold w'. rewrite upload_github_data_to_s3_cases_in. cbn zeta.
  pose proof (get_user_details_quiet env api_client username w) as (K1 & O1).
  assert (Q : forall w_k,
             put_keys (trace w_k) = put_keys (trace w) -> objects w_k = objects w ->
             let w'' := snd (match bound with
                             | Some l =>
                                 (Return VNone,
                                  snd (logger.error l
                                         ("An error occurred during data fetching or uploading: "
                                          +:+ exn_str e) w_k))
                             | None => (@Raise value (main_py.NameError "logger"), w_k)
                             end) in
             put_keys (trace w'') = put_keys (trace w) /\ objects w'' = objects w).
  { intros w_k Hk Ho. destruct bound as [l|]; cbn [snd]; [|auto].
    destruct (log_is_quiet l logging.ERROR
                ("An error occurred during data fetching or uploading: " +:+ exn_str e) w_k)
      as (_ & _ & Hk' & Ho'). unfold logger.error. rewrite Hk', Ho'. auto. }
  destruct H as [H1 | (d & w1 & H1 & H2)].
  - rewrite H1 in *. cbn [snd] in K1, O1. apply Q; assumption.
  - pose proof (get_user_repos_quiet env api_client username w1) as (K2 & O2).
    rewrite H1 in *. rewrite H2 in *. cbn [snd] in K1, O1, K2, O2.
    apply Q; congruence.
Qed.

(** X10. The success line says nothing about the store. With the global
    logger bound as line 67 binds it, when the two fetches return and the store
    refuses both puts with a BotoCoreError or a ClientError, every stored
    object is as it was, and the orchestrator still ends on its success
    line. *)
Theorem success_line_though_nothing_stored (bound : option logger.log_this) (w : World)
  (d : value) (w1 : World) (r : value) (w2 : World) (e1 e2 : exn) :
  let bucket := s3_uploader.bucket_name uploader in
  let p1 := {| Body := Py.str (printer env) d; Bucket := bucket;
               Key := username +:+ "_details.json" |} in
  let p2 := {| Body := Py.str (printer env) r; Bucket := bucket;
               Key := username +:+ "_repos.json" |} in
  bound = Some main.logger ->
  github_api.get_user_details env api_client username w = (Return d, w1) ->
  github_api.get_user_repos env api_client username w1 = (Return r, w2) ->
  put_object env (external (trace w2)) p1 = Raise e1 ->
  isinstance_BotoCoreError_ClientError e1 = true ->
  put_object env (external (trace w2) ++ [Put p1]) p2 = Raise e2 ->
  isinstance_BotoCoreError_ClientError e2 = true ->
  main_py.upload_github_data_to_s3 env bound api_client uploader username w =
    (Return VNone,
     {| trace := trace w2 ++
                 [Put p1;
                  Log "s3_uploader" logging.ERROR ("Error uploading data to S3: " +:+ exn_str e1);
                  Put p2;
                  Log "s3_uploader" logging.ERROR ("Error uploading data to S3: " +:+ exn_str e2);
                  Log "__main__" logging.INFO
                    ("User Details and Repositories for '" +:+ username +:+ "' uploaded to S3")];
        objects := objects w |}).
Proof.
  intros bucket p1 p2 -> H1 H2 A1 B1 A2 B2. rewrite orchestrator_with_logger_bound.
  eapply refused_puts_in_main; eassumption.
Qed.

(** X19. With the global logger bound as line 67 binds it, for every
    username the orchestrator returns None and raises nothing. Either its four
    calls return, and then it has run, in this order, get_user_details,
    get_user_repos, the upload of the details and the upload of the repos, each
    from the world the one before left, and has logged one success line that
    names the username: outside, the run is the two requests followed by the
    two puts. Or one of the four calls raises, and then the exception is caught
    and one error line with its message is logged after what the raising call
    left. *)
Theorem sequence_and_suppression_when_logger_bound (bound : option logger.log_this)
  (w : World) :
  bound = Some main.logger ->
  exists w',
    main_py.upload_github_data_to_s3 env bound api_client uploader username w
      = (Return VNone, w')
    /\ ((exists d w1 r w2 c1 w3 c2 w4,
           github_api.get_user_details env api_client username w = (Return d, w1)
           /\ github_api.get_user_repos env api_client username w1 = (Return r, w2)
           /\ s3_uploader.upload_data_to_s3 env uploader d (username +:+ "_details.json") w2
              = (Return c1, w3)
           /\ s3_uploader.upload_data_to_s3 env uploader r (username +:+ "_repos.json") w3
              = (Return c2, w4)
           /\ w' = extend w4
                     [Log "__main__" logging.INFO
                        ("User Details and Repositories for '" +:+ username
                         +:+ "' uploaded to S3")]
           /\ external (trace w') =
              external (trace w) ++
                [Http {| req_method := "GET";
                         req_url := github_api.base_url api_client +:+ "users/" +:+ username;
                         req_headers := github_api.headers api_client; req_params := None |};
                 Http {| req_method := "GET";
                         req_url := github_api.base_url api_client
                                    +:+ "users/" +:+ username +:+ "/repos";
                         req_headers := github_api.headers api_client; req_params := None |};
                 Put {| Body := Py.str (printer env) d;
                        Bucket := s3_uploader.bucket_name uploader;
                        Key := username +:+ "_details.json" |};
                 Put {| Body := Py.str (printer env) r;
                        Bucket := s3_uploader.bucket_name uploader;
                        Key := username +:+ "_repos.json" |}])
        \/ (exists e w_e,
              interrupted env api_client uploader username w e w_e
              /\ w' = extend w_e
                        [Log "__main__" logging.ERROR
                           ("An error occurred during data fetching or uploading: "
                            +:+ exn_str e)])).
Proof.
  intros ->.
  destruct (sequence_and_suppression_in_main env api_client uploader username w)
    as (w' & Hrun & H).
  exists w'. rewrite orchestrator_with_logger_bound. split; [exact Hrun|exact H].
Qed.

(** X20. With the global logger bound as line 67 binds it, the success line
    is logged whenever none of the four calls raises, whatever they return:
    each of them may have returned None. *)
Theorem success_line_when_logger_bound (bound : option logger.log_this) (w : World)
  (d : value) (w1 : World) (r : value) (w2 : World) (c1 : value) (w3 : World)
  (c2 : value) (w4 : World) :
  bound = Some main.logger ->
  github_api.get_user_details env api_client username w = (Return d, w1) ->
  github_api.get_user_repos env api_client username w1 = (Return r, w2) ->
  s3_uploader.upload_data_to_s3 env uploader d (username +:+ "_details.json") w2
    = (Return c1, w3) ->
  s3_uploader.upload_data_to_s3 env uploader r (username +:+ "_repos.json") w3
    = (Return c2, w4) ->
  main_py.upload_github_data_to_s3 env bound api_client uploader username w =
    (Return VNone,
     extend w4 [Log "__main__" logging.INFO
                  ("User Details and Repositories for '" +:+ username +:+ "' uploaded to S3")]).
Proof.
  intros -> H1 H2 H3 H4. rewrite orchestrator_with_logger_bound.
  eapply success_line_in_main; eassumption.
Qed.

(** X21. In a module that was imported the orchestrator never returns. The
    global logger is not bound there, so for every environment and username
    the run ends with NameError, name 'logger' is not defined, raised to the
    caller: by the success line when the four calls return, by the line of the
    except clause when one of them raises. The calls made before stay made. *)
Theorem imported_orchestrator_always_raises_NameError (w : World) :
  exists w',
    main_py.upload_github_data_to_s3 env None api_client uploader username w
      = (Raise (main_py.NameError "logger"), w')
    /\ (forall d w1 r w2 c1 w3 c2 w4,
          github_api.get_user_details env api_client username w = (Return d, w1) ->
          github_api.get_user_repos env api_client username w1 = (Return r, w2) ->
          s3_uploader.upload_data_to_s3 env uploader d (username +:+ "_details.json") w2
            = (Return c1, w3) ->
          s3_uploader.upload_data_to_s3 env uploader r (username +:+ "_repos.json") w3
            = (Return c2, w4) ->
          w' = w4)
    /\ (forall e w_e, interrupted env api_client uploader username w e w_e -> w' = w_e).
Proof.
  rewrite upload_github_data_to_s3_cases_in. cbn zeta.
  destruct (github_api.get_user_details env api_client username w) as [[d|e] w1] eqn:H1.
  2:{ eexists. split; [reflexivity|]. split.
      - intros ? ? ? ? ? ? ? ? [=].
      - intros e' w_e I. destruct I as [E | ? ? E | ? ? ? ? E | ? ? ? ? ? ? E];
          rewrite H1 in E; congruence. }
  destruct (github_api.get_user_repos env api_client username w1) as [[r|e] w2] eqn:H2.
  2:{ eexists. split; [reflexivity|]. split.
      - intros ? ? ? ? ? ? ? ? [= <- <-] E. rewrite H2 in E. discriminate.
      - intros e' w_e I. destruct I as [E | ? ? E E2 | ? ? ? ? E E2 | ? ? ? ? ? ? E E2];
          rewrite H1 in E; try discriminate; injection E as <- <-;
          rewrite H2 in E2; congruence. }
  destruct (s3_uploader.upload_data_to_s3 env uploader d _ w2) as [[c1|e] w3] eqn:H3.
  2:{ eexists. split; [reflexivity|]. split.
      - intros ? ? ? ? ? ? ? ? [= <- <-] E2 E3. rewrite H2 in E2. injection E2 as <- <-.
        rewrite H3 in E3. discriminate.
      - intros e' w_e I.
        destruct I as [E | ? ? E E2 | ? ? ? ? E E2 E3 | ? ? ? ? ? ? E E2 E3];
          rewrite H1 in E; try discriminate; injection E as <- <-;
          rewrite H2 in E2; try discriminate; injection E2 as <- <-;
          rewrite H3 in E3; congruence. }
  destruct (s3_uploader.upload_data_to_s3 env uploader r _ w3) as [[c2|e] w4] eqn:H4.
  - eexists. split; [reflexivity|]. split.
    + intros ? ? ? ? ? ? ? ? [= <- <-] E2 E3 E4. rewrite H2 in E2. injection E2 as <- <-.
      rewrite H3 in E3. injection E3 as <- <-. rewrite H4 in E4. congruence.
    + intros e' w_e I.
      destruct I as [E | ? ? E E2 | ? ? ? ? E E2 E3 | ? ? ? ? ? ? E E2 E3 E4];
        rewrite H1 in E; try discriminate; injection E as <- <-;
        rewrite H2 in E2; try discriminate; injection E2 as <- <-;
        rewrite H3 in E3; try discriminate; injection E3 as <- <-;
        rewrite H4 in E4; discriminate.
  - eexists. split; [reflexivity|]. split.
    + intros ? ? ? ? ? ? ? ? [= <- <-] E2 E3 E4. rewrite H2 in E2. injection E2 as <- <-.
      rewrite H3 in E3. injection E3 as <- <-. rewrite H4 in E4. discriminate.
    + intros e' w_e I.
      destruct I as [E | ? ? E E2 | ? ? ? ? E E2 E3 | ? ? ? ? ? ? E E2 E3 E4];
        rewrite H1 in E; try discriminate; injection E as <- <-;
        rewrite H2 in E2; try discriminate; injection E2 as <- <-;
        rewrite H3 in E3; try discriminate; injection E3 as <- <-;
        rewrite H4 in E4; congruence.
Qed.

End ModuleState.

(** ** main.py as a module: the program *)

Section ProgramFacts.
Variable env : Env.
Variable host : Host.
Variable disk : handlers.Disk.
Variable now : string -> string.

(** The construction of a logger raises here exactly what [__init__] of
    logger.py raises, from every state of the logging module. *)
Lemma log_this_raises_as___init__ (name : string) (level : Z) (s : handlers.Logging)
  (w : World) :
  main_py.log_this disk now name level w =
  match fst (handlers.__init__ disk (now name) name None level s) with
  | Return _ => (Return {| logger.name := name; logger.level := level |}, w)
  | Raise e => (Raise e, w)
  end.
Proof.
  unfold main_py.log_this, handlers.__init__.
  destruct (handlers.makedirs disk "./logs"); [reflexivity|].
  destruct (handlers.open_append disk _); reflexivity.
Qed.

(** Where the three loggers can be made, the program is [main.program]. *)
Lemma program_with_loggers_made (w : World) :
  handlers.makedirs disk "./logs" = None ->
  (forall name, In name ["s3_uploader"; "github_api"; "__main__"] ->
     handlers.open_append disk ("logs/" +:+ name +:+ "_" +:+ now name +:+ ".log") = None) ->
  main_py.program env host disk now w = main.program env host w.
Proof.
  intros Hd Hf.
  unfold main_py.program, main_py.import_s3_uploader, main_py.import_github_api,
    main_py.__main__, main_py.log_this, main.program.
  rewrite Hd, !Hf by (cbn; auto). reflexivity.
Qed.

(** X14. For every config.yml that opens and parses, whatever it holds,
    python main.py on a disk that takes the logs directory and the three log
    files logs its six records and stops with the TypeError of subscripting
    None: load_configuration has lost the configuration. *)
Theorem program_stops_at_the_subscript_of_None (w : World) (content : string) (v : value) :
  handlers.makedirs disk "./logs" = None ->
  (forall name, In name ["s3_uploader"; "github_api"; "__main__"] ->
     handlers.open_append disk ("logs/" +:+ name +:+ "_" +:+ now name +:+ ".log") = None) ->
  open_text host "config.yml" = Return content ->
  (content = "" /\ v = VNone) \/ (content <> "" /\ yaml_parse host content = Return v) ->
  main_py.program env host disk now w =
    (Raise (builtins.TypeError "'NoneType' object is not subscriptable"),
     extend w [Log "s3_uploader" logging.INFO "S3 Uploader initialized";
               Log "github_api" logging.INFO "GitHub API initialized";
               Log "__main__" logging.INFO "Program started.";
               Log "__main__" logging.DEBUG "Loading configuration from config.yml";
               Log "__main__" logging.DEBUG ("Configuration: " +:+ Py.str (printer env) v);
               Log "__main__" logging.DEBUG "Configuration loaded successfully"]).
Proof.
  intros Hd Hf Ho H. rewrite program_with_loggers_made by assumption.
  apply main_program_stops_at_the_subscript_of_None with (content := content); assumption.
Qed.

(** X22. When the logs directory cannot be made, python main.py stops at
    its first import with what makedirs raised: nothing is logged, requested or
    stored. *)
Theorem program_stops_when_the_logs_directory_cannot_be_made (w : World) (e : exn) :
  handlers.makedirs disk "./logs" = Some e ->
  main_py.program env host disk now w = (Raise e, w).
Proof.
  intros Hd.
  unfold main_py.program, main_py.import_s3_uploader, main_py.log_this, bind.
  rewrite Hd. reflexivity.
Qed.

(** X23. On every machine, with every disk, and from every state,
    python main.py ends with an exception: that of a logger that cannot be
    made, of open, of the parser, or the TypeError of subscripting None. It
    makes no request and no put, and leaves the stored objects as they
    were. *)
Theorem python_main_always_ends_in_an_exception (w : World) :
  exists e w',
    main_py.program env host disk now w = (Raise e, w')
    /\ external (trace w') = external (trace w)
    /\ objects w' = objects w.
Proof.
  destruct (handlers.makedirs disk "./logs") as [e|] eqn:Hd.
  { exists e, w. split; [|auto].
    apply program_stops_when_the_logs_directory_cannot_be_made. exact Hd. }
  destruct (handlers.open_append disk ("logs/" +:+ "s3_uploader" +:+ "_" +:+ now "s3_uploader" +:+ ".log"))
    as [e|] eqn:H1.
  { exists e, w. split; [|auto].
    unfold main_py.program, main_py.import_s3_uploader, main_py.log_this, bind.
    rewrite Hd, H1. reflexivity. }
  destruct (handlers.open_append disk ("logs/" +:+ "github_api" +:+ "_" +:+ now "github_api" +:+ ".log"))
    as [e|] eqn:H2.
  { exists e. eexists. split.
    - unfold main_py.program, main_py.import_s3_uploader, main_py.import_github_api,
        main_py.log_this, bind.
      rewrite Hd, H1, H2. reflexivity.
    - cbn. rewrite external_app. cbn. rewrite app_nil_r. auto. }
  destruct (handlers.open_append disk ("logs/" +:+ "__main__" +:+ "_" +:+ now "__main__" +:+ ".log"))
    as [e|] eqn:H3.
  { exists e. eexists. split.
    - unfold main_py.program, main_py.import_s3_uploader, main_py.import_github_api,
        main_py.__main__, main_py.log_this, bind.
      rewrite Hd, H1, H2, H3. reflexivity.
    - cbn. rewrite !external_app. cbn. rewrite !app_nil_r. auto. }
  rewrite program_with_loggers_made
    by (try assumption; intros name [<-|[<-|[<-|[]]]]; assumption).
  unfold main.program, main.__main__, bind.
  cbn [s3_uploader.on_import github_api.on_import]. cbn -[main.load_configuration].
  rewrite load_configuration_cases.
  destruct (open_text host "config.yml") as [file|e]; cbn zeta.
  - destruct (if String.eqb file "" then Return VNone else yaml_parse host file) as [v|e].
    + do 2 eexists. split; [reflexivity|]. cbn [extend trace objects].
      rewrite !external_app. cbn. rewrite !app_nil_r. auto.
    + do 2 eexists. split; [reflexivity|]. cbn [extend trace objects].
      rewrite !external_app. cbn. rewrite !app_nil_r. auto.
  - do 2 eexists. split; [reflexivity|]. cbn [trace objects].
    rewrite !external_app. cbn. rewrite !app_nil_r. auto.
Qed.

End ProgramFacts.

(** ** main.py as a module: on the sample machine *)

(** C2 as stated fails on a failure of the store that is neither a
    BotoCoreError nor a ClientError: when the client cannot parse the answer of
    the store, botocore's ResponseParserError, which derives from Exception, is
    raised to the caller of upload_data_to_s3 after the put, and nothing is
    logged. *)
Lemma C2_parser_error_reaches_the_caller :
  put_object (env github unparsable) (external (trace start))
    {| Body := "{'login': 'octocat', 'id': 1}"; Bucket := "vendor-data";
       Key := "octocat_details.json" |} = Raise parser_error
  /\ s3_uploader.upload_data_to_s3 (env github unparsable) uploader octocat
       "octocat_details.json" start =
       (Raise parser_error,
        extend start
          [Put {| Body := "{'login': 'octocat', 'id': 1}"; Bucket := "vendor-data";
                  Key := "octocat_details.json" |}]).
Proof. split; reflexivity. Qed.

(** C3. The module imported, so that line 67 has not run and the global
    logger is not bound. Where the provider answers and the store accepts, the
    four calls are made and the success line raises NameError, which the except
    clause catches and whose own line raises NameError again, to the caller:
    the orchestrator does not return None, and no record of it is logged.
    Where a fetch raises, the line of the except clause raises NameError in the
    same way, and the exception of the fetch is not logged. *)
Theorem C3_imported_orchestrator_raises_NameError :
  (exists w',
     main_py.upload_github_data_to_s3 (env github accepting) None api uploader "octocat" start
       = (Raise (main_py.NameError "logger"), w')
     /\ exn_str (main_py.NameError "logger") = "name 'logger' is not defined"
     /\ put_keys (trace w') = ["octocat_details.json"; "octocat_repos.json"]
     /\ records_of "__main__" (trace w') = [])
  /\
  (exists w_e w',
     github_api.get_user_details (env html_page accepting) api "octocat" start
       = (Raise not_json, w_e)
     /\ main_py.upload_github_data_to_s3 (env html_page accepting) None api uploader "octocat"
          start = (Raise (main_py.NameError "logger"), w')
     /\ w' = w_e
     /\ records_of "__main__" (trace w') = []).
Proof.
  split.
  - eexists. split; [reflexivity|]. split; [reflexivity|]. split; reflexivity.
  - do 2 eexists. split; [reflexivity|]. split; [reflexivity|]. split; reflexivity.
Qed.


(** The details get 404, the repos a page that is not JSON: nothing is put,
    the logger bound or not. *)
Lemma X7_no_put_after_a_page_that_is_not_JSON :
  exists w1 w_e,
    github_api.get_user_details (env no_details_html_repos accepting) api "octocat" start
      = (Return VNone, w1)
    /\ github_api.get_user_repos (env no_details_html_repos accepting) api "octocat" w1
       = (Raise not_json, w_e)
    /\ (let w' := snd (main_py.upload_github_data_to_s3 (env no_details_html_repos accepting)
                         None api uploader "octocat" start) in
        put_keys (trace w') = put_keys (trace start) /\ objects w' = objects start).
Proof.
  do 2 eexists. split; [reflexivity|]. split; [reflexivity|].
  eapply (no_upload_when_a_fetch_raises (env no_details_html_repos accepting) api uploader
            "octocat" None start not_json).
  right. do 2 eexists. split; reflexivity.
Defined.

(** The provider answers, the store denies both puts: the bucket stays
    empty and the last record is the success line. *)
Lemma X10_success_line_and_an_empty_bucket :
  exists w',
    main_py.upload_github_data_to_s3 (env github denying) (Some main.logger) api uploader
      "octocat" start = (Return VNone, w')
    /\ objects w' = ∅
    /\ last (trace w')
       = Some (Log "__main__" logging.INFO
                 "User Details and Repositories for 'octocat' uploaded to S3").
Proof.
  eexists. split.
  - eapply (success_line_though_nothing_stored (env github denying) api uploader "octocat"
              (Some main.logger) start); reflexivity.
  - split; reflexivity.
Defined.

Lemma X14_the_program_with_its_configuration :
  main_py.program (env github accepting) configured disk stamp start =
    (Raise (builtins.TypeError "'NoneType' object is not subscriptable"),
     extend start
       [Log "s3_uploader" logging.INFO "S3 Uploader initialized";
        Log "github_api" logging.INFO "GitHub API initialized";
        Log "__main__" logging.INFO "Program started.";
        Log "__main__" logging.DEBUG "Loading configuration from config.yml";
        Log "__main__" logging.DEBUG
          "Configuration: {'github_base_url': 'https://api.example.com/', 'github_token': 'abc', 's3_bucket_name': 'vendor-data'}";
        Log "__main__" logging.DEBUG "Configuration loaded successfully"]).
Proof.
  apply (program_stops_at_the_subscript_of_None (env github accepting) configured disk stamp
           start config_text config).
  - reflexivity.
  - intros name _. reflexivity.
  - reflexivity.
  - right. split; [discriminate|reflexivity].
Defined.

(** The provider answers and the store accepts: the run is the two requests
    and the two puts, and None is returned. *)
Lemma X19_octocat_with_the_logger_bound :
  exists w',
    main_py.upload_github_data_to_s3 (env github accepting) (Some main.logger) api uploader
      "octocat" start = (Return VNone, w')
    /\ put_keys (trace w') = ["octocat_details.json"; "octocat_repos.json"]
    /\ records_of "__main__" (trace w')
       = [Log "__main__" logging.INFO
            "User Details and Repositories for 'octocat' uploaded to S3"].
Proof.
  destruct (sequence_and_suppression_when_logger_bound (env github accepting) api uploader
              "octocat" (Some main.logger) start eq_refl) as (w' & Hrun & _).
  exists w'. split; [exact Hrun|].
  assert (E : w' = snd (main_py.upload_github_data_to_s3 (env github accepting)
                          (Some main.logger) api uploader "octocat" start))
    by (rewrite Hrun; reflexivity).
  rewrite E. split; reflexivity.
Defined.

(** Every fetch gets 404 and every put is denied: the four calls return
    None, and with the logger bound the success line is logged all the same. *)
Lemma X20_success_logged_after_four_absent :
  exists w1 w2 w3 w4,
    github_api.get_user_details (env not_found denying) api "octocat" start = (Return VNone, w1)
    /\ github_api.get_user_repos (env not_found denying) api "octocat" w1 = (Return VNone, w2)
    /\ s3_uploader.upload_data_to_s3 (env not_found denying) uploader VNone
         "octocat_details.json" w2 = (Return VNone, w3)
    /\ s3_uploader.upload_data_to_s3 (env not_found denying) uploader VNone
         "octocat_repos.json" w3 = (Return VNone, w4)
    /\ main_py.upload_github_data_to_s3 (env not_found denying) (Some main.logger) api uploader
         "octocat" start =
         (Return VNone,
          extend w4
            [Log "__main__" logging.INFO
               "User Details and Repositories for 'octocat' uploaded to S3"]).
Proof.
  do 4 eexists.
  split; [reflexivity|]. split; [reflexivity|]. split; [reflexivity|]. split; [reflexivity|].
  eapply (success_line_when_logger_bound (env not_found denying) api uploader "octocat"
            (Some main.logger) start); reflexivity.
Defined.

(** On a disk that cannot be written, the program stops before its first
    record. *)
Lemma X22_read_only_disk_stops_the_program :
  main_py.program (env github accepting) configured read_only stamp start
    = (Raise permission_denied, start).
Proof.
  apply (program_stops_when_the_logs_directory_cannot_be_made (env github accepting) configured
           read_only stamp start permission_denied).
  reflexivity.
Defined.
